(** * Chatbot-LLAMA: the conversation state and the streaming render of app.py

    A shallow embedding of [src/app.py], a Streamlit script.  Streamlit runs
    the whole script from top to bottom once per user interaction;
    [st.session_state] is the only value that survives from one run to the
    next.  A run is modelled as a function in a small state-and-exception
    monad over a [World]: the conversation list, the log of everything the
    script did to the outside (widgets drawn, gateway calls, sleeps) and the
    file system used by the upload helper.

    Python's [str] is a sequence of code points, and [for chunk in response]
    walks a [str] one code point at a time, so a string is a list of code
    points here and not a list of bytes. *)

From Stdlib Require Import NArith Strings.String Strings.Ascii Strings.Byte.
From stdpp Require Import base option list gmap.

Local Open Scope N_scope.

(** ** Python strings *)

Module Py.

(** An ASCII literal of the source, as a Python string. *)
Definition lit (s : string) : list N :=
  map N_of_ascii (list_ascii_of_string s).

(** [bool(s)] for a string: only the empty string is falsy. *)
Definition truthy (s : list N) : bool :=
  match s with
  | [] => false
  | _ :: _ => true
  end.

(** Iterating a [str] yields its one-character substrings, in order. *)
Definition iter (s : list N) : list (list N) :=
  map (λ c, [c]) s.

(** [s.rfind(c)]: the index of the last occurrence of [c], if any. *)
Fixpoint rfind (c : N) (s : list N) : option nat :=
  match s with
  | [] => None
  | x :: rest =>
      match rfind c rest with
      | Some i => Some (S i)
      | None => if N.eqb x c then Some O else None
      end
  end.

(** [s.split(sep)] for a one-character separator. *)
Fixpoint split (sep : N) (s : list N) : list (list N) :=
  match s with
  | [] => [[]]
  | x :: rest =>
      if N.eqb x sep then [] :: split sep rest
      else match split sep rest with
           | [] => [[x]]
           | w :: ws => (x :: w) :: ws
           end
  end.

End Py.

(** ** Data model *)

(** One entry of [st.session_state.messages]: the dict literal
    [{"role": ..., "content": ...}], whose two keys are fixed. *)
Record ChatTurn := mkTurn {
  role : list N;
  content : list N
}.

(** What [st.file_uploader] hands to the script. *)
Record UploadedFile := mkUpload {
  name : list N;
  getvalue : list byte
}.

(** The gateway object built by [load_llm]. *)
Record OllamaLLM := mkLLM { model : list N }.

(** What can be raised.  [is_Exception] tells whether the object is an
    instance of [Exception], which is what [except Exception] catches; the
    other instances of [BaseException] ([KeyboardInterrupt], [SystemExit],
    Streamlit's [StopException] and [RerunException]) are not.  [exn_str] is
    [str(e)]. *)
Record exn := mkExn {
  is_Exception : bool;
  exn_str : list N
}.

(** Everything the script does to the outside, in the order it does it. *)
Inductive Effect :=
  | SetPageConfig (page_title layout : list N)
  | Title (text : list N)
  | Header (text : list N)
  | FileUploader (label : list N) (types : list (list N))
  | Spinner (text : list N)
  | Success (text : list N)
  | Button (label : list N)
  | Markdown (text : list N)
  | ChatMessage (who : list N)
  | ChatInput (placeholder : list N)
  | Empty
  | PlaceholderMarkdown (text : list N)
  | Invoke (llm : OllamaLLM) (prompt : list N)
  | Sleep (milliseconds : N)
  | Error (text : list N)
  | Sidebar
  | StyleSheet.

(** The state a run of the script works on: the conversation list, the
    log of effects, the file system, and how many random names [tempfile]
    has drawn so far. *)
Record World := mkWorld {
  messages : list ChatTurn;
  trace : list Effect;
  files : gmap (list N) (list byte);
  drawn : nat
}.

(** The collaborators the script does not implement.  Each answer may depend
    on everything that happened before, which is passed as the trace. *)
Record Env := mkEnv {
  (** [llm.invoke(prompt)]: raises, or returns the whole text. *)
  llm_invoke : list Effect → OllamaLLM → list N → exn + list N;
  (** [message_placeholder.markdown(text)]: whether the write raises. *)
  markdown_raises : list Effect → list N → option exn;
  (** [tempfile.gettempdir()], an absolute path. *)
  tempdir : list N;
  (** The random names [tempfile] draws, in the order it draws them. *)
  random_names : nat → list N;
  (** [tempfile.TMP_MAX]: [os.TMP_MAX] where the platform defines it,
      10000 elsewhere. *)
  TMP_MAX : nat;
  (** The error with which [os.open(path, O_CREAT | O_EXCL ...)] fails on a
      path at which there is no file: [ValueError] for an embedded NUL,
      [OSError] for a name that is too long, a directory that is missing or
      may not be written, a full disk; [None] when the file can be made. *)
  os_open_error : list N → option exn
}.

(** ** The monad: state that survives an exception *)

Definition M (A : Type) : Type := World → World * (exn + A).

Definition ret {A} (a : A) : M A := λ w, (w, inr a).

Definition raise {A} (e : exn) : M A := λ w, (w, inl e).

Definition bind {A B} (k : A → M B) (m : M A) : M B :=
  λ w, match m w with
       | (w', inr a) => k a w'
       | (w', inl e) => (w', inl e)
       end.

#[global] Instance M_ret : MRet M := @ret.
#[global] Instance M_bind : MBind M := @bind.

(** [try: body except Exception as e: handler(e)]: what is raised and is
    not an instance of [Exception] goes on past the handler. *)
Definition try_except {A} (body : M A) (handler : exn → M A) : M A :=
  λ w, match body w with
       | (w', inr a) => (w', inr a)
       | (w', inl e) => if is_Exception e then handler e w' else (w', inl e)
       end.

Definition emit (e : Effect) : M unit :=
  λ w, (mkWorld (messages w) (trace w ++ [e]) (files w) (drawn w), inr tt).

(** [st.session_state.messages.append(turn)]. *)
Definition append (turn : ChatTurn) : M unit :=
  λ w, (mkWorld (messages w ++ [turn]) (trace w) (files w) (drawn w), inr tt).

(** [st.session_state.messages = []]. *)
Definition reset_messages : M unit :=
  λ w, (mkWorld [] (trace w) (files w) (drawn w), inr tt).

(** ** The script *)

Section Script.

Context (env : Env).

(** [load_llm()]. *)
Definition load_llm : OllamaLLM := mkLLM (Py.lit "llama3.2").

(** [llm.invoke(prompt)]. *)
Definition invoke (llm : OllamaLLM) (prompt : list N) : M (list N) :=
  λ w, let w' := mkWorld (messages w) (trace w ++ [Invoke llm prompt])
                        (files w) (drawn w) in
       (w', llm_invoke env (trace w) llm prompt).

(** [message_placeholder.markdown(text)]. *)
Definition placeholder_markdown (text : list N) : M unit :=
  λ w, match markdown_raises env (trace w) text with
       | Some e => (w, inl e)
       | None => emit (PlaceholderMarkdown text) w
       end.

(** The cursor glyph of the source, U+258C. *)
Definition cursor : list N := [0x258C].

(** [time.sleep(0.02)]. *)
Definition sleep_0_02 : M unit := emit (Sleep 20).

(** The loop [for chunk in response], started with the accumulator
    [full_response]; it returns the accumulator at exhaustion. *)
Fixpoint stream (chunks : list (list N)) (full_response : list N) : M (list N) :=
  match chunks with
  | [] => mret full_response
  | chunk :: rest =>
      let full_response := full_response ++ chunk in
      placeholder_markdown (full_response ++ cursor);;
      sleep_0_02;;
      stream rest full_response
  end.

(** The body of the [try] block. *)
Definition try_body (prompt : list N) : M unit :=
  let llm := load_llm in
  emit (Spinner (Py.lit "Thinking..."));;
  response ← invoke llm prompt;
  full_response ← stream (Py.iter response) [];
  placeholder_markdown full_response;;
  append (mkTurn (Py.lit "assistant") full_response).

(** The [except Exception as e] clause. *)
Definition except_clause (e : exn) : M unit :=
  emit (Error (Py.lit "An error occurred: " ++ exn_str e)).

(** The block under [if prompt := st.chat_input(...)]. *)
Definition on_prompt (prompt : list N) : M unit :=
  append (mkTurn (Py.lit "user") prompt);;
  emit (ChatMessage (Py.lit "user"));;
  emit (Markdown prompt);;
  emit (ChatMessage (Py.lit "assistant"));;
  emit Empty;;
  try_except (try_body prompt) except_clause.

(** [if prompt := st.chat_input("What would you like to discuss?"): ...];
    [submitted] is what [st.chat_input] returned, [None] when nothing was
    submitted in this run. *)
Definition chat_input_handler (submitted : option (list N)) : M unit :=
  emit (ChatInput (Py.lit "What would you like to discuss?"));;
  match submitted with
  | Some prompt => if Py.truthy prompt then on_prompt prompt else mret tt
  | None => mret tt
  end.

(** *** The upload helper

    [process_file] is four lines over [pathlib] and [tempfile]; the two
    library calls are modelled after CPython's POSIX behaviour. *)

(** [PurePosixPath(p).name]: the last component that is neither empty nor
    a single dot; the empty string when there is none. *)
Definition path_name (p : list N) : list N :=
  let dot := Py.lit "." in
  let parts := filter (λ x, x ≠ [] ∧ x ≠ dot) (Py.split 47 p) in
  default [] (last parts).

(** [PurePosixPath(p).suffix]: from the last dot of the name on, when that
    dot is neither the first nor the last character of the name. *)
Definition path_suffix (p : list N) : list N :=
  let nm := path_name p in
  match Py.rfind 46 nm with
  | Some i =>
      if (Nat.ltb 0 i && Nat.ltb i (length nm - 1))%bool then drop i nm else []
  | None => []
  end.

(** [os.path.join(a, b)] for a relative [b]. *)
Definition path_join (a b : list N) : list N :=
  match last a with
  | None => b
  | Some c => if N.eqb c 47 then a ++ b else a ++ [47] ++ b
  end.

(** The [k]-th path [tempfile] tries when [n] names were drawn before. *)
Definition candidate (dir pre suf : list N) (n k : nat) : list N :=
  path_join dir (pre ++ random_names env (n + k) ++ suf).

(** The object [tempfile.NamedTemporaryFile] returns. *)
Record TemporaryFile := mkTemp {
  tmp_name : list N;
  tmp_delete : bool
}.

(** [next(names)] on the process-wide name generator. *)
Definition next_name : M (list N) :=
  λ w, (mkWorld (messages w) (trace w) (files w) (S (drawn w)),
        inr (random_names env (drawn w))).

(** [os.open(file, O_CREAT | O_EXCL ...)] as [_mkstemp_inner] uses it: it
    tells that the name is taken ([FileExistsError], which the caller
    catches), or fails with another error and makes no file, or creates the
    empty file. *)
Definition open_excl (file : list N) : M bool :=
  λ w, match files w !! file with
       | Some _ => (w, inr false)
       | None =>
           match os_open_error env file with
           | Some e => (w, inl e)
           | None =>
               (mkWorld (messages w) (trace w) (<[file := []]> (files w))
                  (drawn w), inr true)
           end
       end.

(** The [FileExistsError] with which [tempfile] gives up. *)
Definition no_usable_name : exn :=
  mkExn true (Py.lit "[Errno 17] No usable temporary file name found").

(** [tempfile._mkstemp_inner]: up to [TMP_MAX] candidate names are tried;
    an error of [os.open] other than [FileExistsError] is not caught. *)
Fixpoint mkstemp_inner (tries : nat) (dir pre suf : list N) : M (list N) :=
  match tries with
  | O => raise no_usable_name
  | S tries' =>
      nm ← next_name;
      let file := path_join dir (pre ++ nm ++ suf) in
      created ← open_excl file;
      if created : bool then mret file else mkstemp_inner tries' dir pre suf
  end.

(** [tempfile.NamedTemporaryFile(delete=..., suffix=...)], with the default
    prefix and directory. *)
Definition NamedTemporaryFile (delete : bool) (suffix : list N) : M TemporaryFile :=
  file ← mkstemp_inner (TMP_MAX env) (tempdir env) (Py.lit "tmp") suffix;
  mret (mkTemp file delete).

(** [tmp_file.write(data)]. *)
Definition tmp_write (f : TemporaryFile) (data : list byte) : M unit :=
  λ w, (mkWorld (messages w) (trace w)
          (alter (λ old, old ++ data) (tmp_name f) (files w)) (drawn w),
        inr tt).

(** Leaving the [with] block closes the file, which removes it when it was
    made with [delete=True]. *)
Definition tmp_close (f : TemporaryFile) : M unit :=
  λ w, if tmp_delete f
       then (mkWorld (messages w) (trace w) (delete (tmp_name f) (files w))
               (drawn w), inr tt)
       else (w, inr tt).

(** Run [body], then close [f] however the body ended. *)
Definition closing {A} (f : TemporaryFile) (body : M A) : M A :=
  λ w, match body w with
       | (w', r) => (fst (tmp_close f w'), r)
       end.

(** [with make as f: body]. *)
Definition with_file {A} (make : M TemporaryFile) (body : TemporaryFile → M A) : M A :=
  f ← make;
  closing f (body f).

(** [process_file(uploaded_file)]. *)
Definition process_file (uploaded_file : option UploadedFile) : M (option (list N)) :=
  match uploaded_file with
  | Some up =>
      with_file (NamedTemporaryFile false (path_suffix (name up)))
        (λ tmp_file,
           tmp_write tmp_file (getvalue up);;
           mret (Some (tmp_name tmp_file)))
  | None => mret None
  end.

(** *** The rest of the script *)

(** The two statements under [if st.button("Clear Conversation"):]. *)
Definition clear_conversation : M unit :=
  reset_messages;;
  emit (Success (Py.lit "Conversation cleared!")).

(** What the widgets returned in one run of the script. *)
Record Inputs := mkInputs {
  uploaded_file : option UploadedFile;
  clear_clicked : bool;
  submitted : option (list N)
}.

(** The [with st.sidebar:] block. *)
Definition sidebar (i : Inputs) : M unit :=
  emit Sidebar;;
  emit (Header (Py.lit "Settings"));;
  emit (FileUploader (Py.lit "Upload a file")
          [Py.lit "txt"; Py.lit "pdf"; Py.lit "docx"]);;
  match uploaded_file i with
  | Some up =>
      emit (Spinner (Py.lit "Processing file..."));;
      file_path ← process_file (Some up);
      emit (Success (Py.lit "File uploaded: " ++ name up))
  | None => mret tt
  end;;
  emit (Button (Py.lit "Clear Conversation"));;
  (if clear_clicked i then clear_conversation else mret tt);;
  emit (Markdown (Py.lit "---"));;
  emit (Markdown (Py.lit "### About"));;
  emit (Markdown (Py.lit "
    This chatbot uses LLAMA 3.2 model to generate responses.
    - Upload documents to discuss their content
    - Have natural conversations
    - Get AI-powered assistance
    ")).

(** [for message in st.session_state.messages: ...]. *)
Fixpoint display_messages (ms : list ChatTurn) : M unit :=
  match ms with
  | [] => mret tt
  | message :: rest =>
      emit (ChatMessage (role message));;
      emit (Markdown (content message));;
      display_messages rest
  end.

(** The script from line 14 on, lines 20 and 21 apart: [messages] is
    already in the session state.  The style sheet of the last statement is
    not reproduced. *)
Definition script (i : Inputs) : M unit :=
  emit (SetPageConfig (Py.lit "Chatbot LLAMA 3.2") (Py.lit "wide"));;
  emit (Title ([0x1F4AC] ++ Py.lit " Chatbot with LLAMA 3.2"));;
  sidebar i;;
  ms ← (λ w, (w, inr (messages w)));
  display_messages ms;;
  chat_input_handler (submitted i);;
  emit StyleSheet.

End Script.

(** ** Runs of the script in one process *)

(** What outlives a run: the session state, in which the key [messages] is
    absent until the first run, and the outside world. *)
Record Process := mkProcess {
  session_messages : option (list ChatTurn);
  log : list Effect;
  disk : gmap (list N) (list byte);
  names_drawn : nat
}.

(** [if "messages" not in st.session_state: st.session_state.messages = []]. *)
Definition ensure_messages (session_state : option (list ChatTurn)) : list ChatTurn :=
  match session_state with
  | None => []
  | Some ms => ms
  end.

(** One run of the script; an exception that leaves the script ends the run
    and keeps the session state as it was when it was raised. *)
Definition run (env : Env) (p : Process) (i : Inputs) : Process :=
  let w := mkWorld (ensure_messages (session_messages p)) (log p) (disk p)
             (names_drawn p) in
  let w' := fst (script env i w) in
  mkProcess (Some (messages w')) (trace w') (files w') (drawn w').

(** A session is a sequence of runs. *)
Definition runs (env : Env) (p : Process) (inputs : list Inputs) : Process :=
  foldl (run env) p inputs.

(** The conversation as the display pass would read it. *)
Definition conversation (p : Process) : list ChatTurn :=
  ensure_messages (session_messages p).

(** A process in which no session has run yet. *)
Definition fresh (tr : list Effect) (fs : gmap (list N) (list byte)) (n : nat) : Process :=
  mkProcess None tr fs n.

(** ** Reading the log *)

(** The texts written to the assistant's placeholder. *)
Definition placeholder_writes (es : list Effect) : list (list N) :=
  omap (λ e, match e with PlaceholderMarkdown t => Some t | _ => None end) es.

(** The arguments the gateway was called with. *)
Definition gateway_calls (es : list Effect) : list (list N) :=
  omap (λ e, match e with Invoke _ p => Some p | _ => None end) es.

(** The error annotations shown. *)
Definition errors (es : list Effect) : list (list N) :=
  omap (λ e, match e with Error t => Some t | _ => None end) es.

(** The frames the loop shows for the remaining [chunks] when the
    accumulator holds [acc]. *)
Fixpoint frames (acc : list N) (chunks : list (list N)) : list (list N) :=
  match chunks with
  | [] => []
  | chunk :: rest => (acc ++ chunk ++ cursor) :: frames (acc ++ chunk) rest
  end.

(** [w'] is [w] after the effects [new], with the conversation, the files
    and the name generator untouched. *)
Definition only_logs (w w' : World) (new : list Effect) : Prop :=
  messages w' = messages w ∧ trace w' = trace w ++ new ∧
  files w' = files w ∧ drawn w' = drawn w.

(** An environment in which no write to the placeholder raises. *)
Definition display_works (env : Env) : Prop :=
  ∀ h t, markdown_raises env h t = None.

(** A gateway that answers [response] to [prompt], whenever it is asked. *)
Definition answers (env : Env) (prompt response : list N) : Prop :=
  ∀ h llm, llm_invoke env h llm prompt = inr response.

(** A stub gateway: it answers [g prompt] to every [prompt]. *)
Definition stub_gateway (env : Env) (g : list N → list N) : Prop :=
  ∀ prompt, answers env prompt (g prompt).

(** The world in which the [try] block of [on_prompt] starts: the user turn
    is appended and the two chat bubbles are open. *)
Definition at_try (prompt : list N) (w : World) : World :=
  mkWorld (messages w ++ [mkTurn (Py.lit "user") prompt])
    ((((trace w ++ [ChatMessage (Py.lit "user")]) ++ [Markdown prompt])
        ++ [ChatMessage (Py.lit "assistant")]) ++ [Empty])
    (files w) (drawn w).

(** The effects logged between the drawing of the input box and the [try]
    block. *)
Definition opening (prompt : list N) : list Effect :=
  [ChatMessage (Py.lit "user"); Markdown prompt;
   ChatMessage (Py.lit "assistant"); Empty].

(** The frames of a response streamed by characters, written out: each
    non-empty prefix followed by the cursor. *)
Definition prefixes_with_cursor (response : list N) : list (list N) :=
  map (λ k, take k response ++ cursor) (seq 1 (length response)).

(** The spec's notion of a blank submission: empty, or made of whitespace
    characters only (space, tab, line feed, vertical tab, form feed,
    carriage return). *)
Definition spec_blank (s : list N) : bool :=
  forallb (λ c, N.eqb c 32 || (N.leb 9 c && N.leb c 13))%bool s.

(** A run in which only a prompt was submitted. *)
Definition submission (prompt : list N) : Inputs :=
  mkInputs None false (Some prompt).

(** A run in which only the clear button was clicked. *)
Definition clear_click : Inputs := mkInputs None true None.

(** The turns a stub gateway [g] leaves for the prompts [ps]. *)
Definition dialogue (g : list N → list N) (ps : list (list N)) : list ChatTurn :=
  flat_map (λ p, [mkTurn (Py.lit "user") p; mkTurn (Py.lit "assistant") (g p)]) ps.

(** What handling the submission [submitted] can append to the
    conversation: nothing when there is none or it is empty; else the user
    turn, followed or not by one assistant turn. *)
Definition appended_by (submitted : option (list N)) (added : list ChatTurn) : Prop :=
  match submitted with
  | Some (c :: prompt) =>
      added = [mkTurn (Py.lit "user") (c :: prompt)] ∨
      ∃ response, added = [mkTurn (Py.lit "user") (c :: prompt);
                           mkTurn (Py.lit "assistant") response]
  | _ => added = []
  end.

(** What a run with the inputs [i] can append: what handling the submission
    appends, or nothing when the run does not get to the handler. *)
Definition appended_in_run (i : Inputs) (added : list ChatTurn) : Prop :=
  added = [] ∨ appended_by (submitted i) added.

(** *** Concrete environments *)

(** The length of [s] in UTF-8. *)
Definition utf8_length (s : list N) : nat :=
  foldr (λ c n, (if N.ltb c 0x80 then 1 else if N.ltb c 0x800 then 2
                 else if N.ltb c 0x10000 then 3 else 4) + n)%nat O s.

(** The errors of [os.open] that depend on the path alone, on a file system
    whose names hold 255 bytes: an embedded NUL, a last component that is
    too long.  (The text of the second is exact for paths that [repr]
    leaves as they are.) *)
Definition posix_open_error (path : list N) : option exn :=
  if bool_decide (0 ∈ path)
  then Some (mkExn true (Py.lit "embedded null byte"))
  else if Nat.ltb 255 (utf8_length (default [] (last (Py.split 47 path))))
  then Some (mkExn true (Py.lit "[Errno 36] File name too long: '" ++ path
                           ++ Py.lit "'"))
  else None.

(** A gateway stub that answers [g prompt]; every write succeeds. *)
Definition stub_env (g : list N → list N) : Env :=
  mkEnv (λ _ _ prompt, inr (g prompt)) (λ _ _, None)
    (Py.lit "/tmp") (λ k, Py.lit "k3x9_a0" ++ [48 + N.of_nat k])
    (N.to_nat 10000) posix_open_error.

(** A gateway that cannot be reached. *)
Definition down_env : Env :=
  mkEnv (λ _ _ _, inl (mkExn true (Py.lit "connection refused"))) (λ _ _, None)
    (Py.lit "/tmp") (λ k, Py.lit "k3x9_a0" ++ [48 + N.of_nat k])
    (N.to_nat 10000) posix_open_error.

(** A gateway that answers, and a display whose second write stops the
    script the way Streamlit does, with an exception that is not an
    [Exception]. *)
Definition stopping_env : Env :=
  mkEnv (λ _ _ _, inr (Py.lit "hi"))
    (λ h _, if Nat.eqb (length (placeholder_writes h)) 1
            then Some (mkExn false (Py.lit "")) else None)
    (Py.lit "/tmp") (λ k, Py.lit "k3x9_a0" ++ [48 + N.of_nat k])
    (N.to_nat 10000) posix_open_error.

(** An empty world and an empty process. *)
Definition w_empty : World := mkWorld [] [] ∅ O.

Definition p_empty : Process := fresh [] ∅ O.

(** *** Further readings of the log and further environments *)

(** The delays slept, in milliseconds. *)
Definition sleeps (es : list Effect) : list N :=
  omap (λ e, match e with Sleep ms => Some ms | _ => None end) es.

(** What the display pass draws for the turns [ms]: per turn a bubble tagged
    with the role, then the content. *)
Definition bubbles (ms : list ChatTurn) : list Effect :=
  flat_map (λ m, [ChatMessage (role m); Markdown (content m)]) ms.

(** The same world over another file system. *)
Definition set_files (fs : gmap (list N) (list byte)) (w : World) : World :=
  mkWorld (messages w) (trace w) fs (drawn w).

(** A gateway that raises whenever it is called. *)
Definition gateway_down (env : Env) : Prop :=
  ∀ h llm prompt, ∃ e, llm_invoke env h llm prompt = inl e.

(** Every one of the next [TMP_MAX] candidate paths for the suffix [suf] is
    taken in [w]. *)
Definition candidates_taken (env : Env) (suf : list N) (w : World) : Prop :=
  ∀ k, (k < TMP_MAX env)%nat →
       files w !! candidate env (tempdir env) (Py.lit "tmp") suf (drawn w) k
         ≠ None.

(** What a run has drawn when the upload helper raises: everything up to
    the spinner around [process_file], and nothing after it. *)
Definition drawn_before_upload : list Effect :=
  [SetPageConfig (Py.lit "Chatbot LLAMA 3.2") (Py.lit "wide");
   Title ([0x1F4AC] ++ Py.lit " Chatbot with LLAMA 3.2");
   Sidebar;
   Header (Py.lit "Settings");
   FileUploader (Py.lit "Upload a file")
     [Py.lit "txt"; Py.lit "pdf"; Py.lit "docx"];
   Spinner (Py.lit "Processing file...")].

(** The world in which the sidebar starts: page configuration and title
    are drawn. *)
Definition at_sidebar (w : World) : World :=
  mkWorld (messages w)
    ((trace w ++ [SetPageConfig (Py.lit "Chatbot LLAMA 3.2") (Py.lit "wide")])
       ++ [Title ([0x1F4AC] ++ Py.lit " Chatbot with LLAMA 3.2")])
    (files w) (drawn w).

(** A computation that only adds to the log, and adds no gateway call. *)
Definition calls_no_gateway {A} (m : M A) : Prop :=
  ∀ w, ∃ new, trace (m w).1 = trace w ++ new ∧ gateway_calls new = [].

(** An environment whose [tempfile] gives up after two names, and a world
    in which both names are taken for the suffix [.txt]. *)
Definition two_names_env : Env :=
  mkEnv (λ _ _ prompt, inr prompt) (λ _ _, None)
    (Py.lit "/tmp") (λ k, Py.lit "k3x9_a0" ++ [48 + N.of_nat k]) 2
    posix_open_error.

Definition w_taken : World :=
  mkWorld [mkTurn (Py.lit "user") (Py.lit "hello")] []
    (<[Py.lit "/tmp/tmpk3x9_a00.txt" := [x61]]>
       (<[Py.lit "/tmp/tmpk3x9_a01.txt" := [x62]]> ∅)) O.

(** ** Basic facts *)

Lemma bind_unfold {A B} (m : M A) (k : A → M B) w :
  (m ≫= k) w = match m w with
               | (w', inr a) => k a w'
               | (w', inl e) => (w', inl e)
               end.
Proof. reflexivity. Qed.

(** Run the leading statements of a sequence that cannot raise. *)
Ltac run_steps :=
  repeat (rewrite bind_unfold; cbn [emit append reset_messages]).

Lemma only_logs_refl w : only_logs w w [].
Proof. unfold only_logs. by rewrite app_nil_r. Qed.

Lemma only_logs_trans w1 w2 w3 n1 n2 :
  only_logs w1 w2 n1 → only_logs w2 w3 n2 → only_logs w1 w3 (n1 ++ n2).
Proof.
  intros (Hm1 & Ht1 & Hf1 & Hd1) (Hm2 & Ht2 & Hf2 & Hd2).
  unfold only_logs. rewrite Hm2, Ht2, Hf2, Hd2, Ht1, app_assoc. done.
Qed.

Lemma Py_iter_concat (s : list N) : concat (Py.iter s) = s.
Proof. induction s as [|c s IH]; simpl; [done | by rewrite IH]. Qed.

Lemma Py_iter_length (s : list N) : length (Py.iter s) = length s.
Proof. apply length_map. Qed.

Lemma frames_length acc chunks : length (frames acc chunks) = length chunks.
Proof.
  revert acc. induction chunks as [|c cs IH]; intros acc; simpl; [done|].
  by rewrite IH.
Qed.

(** The [k]-th frame of a string streamed by characters is its prefix of
    length [k + 1] followed by the cursor. *)
Lemma frames_iter_lookup (s acc : list N) (k : nat) :
  (k < length s)%nat →
  frames acc (Py.iter s) !! k = Some (acc ++ take (S k) s ++ cursor).
Proof.
  revert acc k. induction s as [|c s IH]; intros acc k Hk; simpl in *; [lia|].
  destruct k as [|k]; simpl.
  - by destruct s.
  - rewrite IH by lia. by rewrite <- app_assoc.
Qed.

Lemma frames_prefixes (s : list N) :
  frames [] (Py.iter s) = prefixes_with_cursor s.
Proof.
  apply list_eq. intros k. unfold prefixes_with_cursor.
  destruct (decide (k < length s)%nat) as [Hk|Hk].
  - rewrite frames_iter_lookup by done.
    rewrite list_lookup_fmap, lookup_seq_lt by done. done.
  - rewrite !(proj2 (lookup_ge_None _ _)); [done| |].
    + rewrite length_map, length_seq. lia.
    + rewrite frames_length, Py_iter_length. lia.
Qed.

Lemma prefixes_with_cursor_length (s : list N) :
  length (prefixes_with_cursor s) = length s.
Proof. unfold prefixes_with_cursor. by rewrite length_map, length_seq. Qed.

Section Facts.

Context (env : Env).

Lemma placeholder_markdown_ok text w :
  markdown_raises env (trace w) text = None →
  placeholder_markdown env text w =
    (mkWorld (messages w) (trace w ++ [PlaceholderMarkdown text]) (files w)
       (drawn w), inr tt).
Proof. intros H. unfold placeholder_markdown. by rewrite H. Qed.

Lemma placeholder_markdown_raises text w e :
  markdown_raises env (trace w) text = Some e →
  placeholder_markdown env text w = (w, inl e).
Proof. intros H. unfold placeholder_markdown. by rewrite H. Qed.

(** Whatever the loop does, it only adds placeholder writes and sleeps to
    the log; when it ends normally it returns accumulator plus chunks and
    has shown every frame. *)
Lemma stream_spec chunks : ∀ acc w,
  ∃ new, only_logs w (stream env chunks acc w).1 new ∧
         gateway_calls new = [] ∧ errors new = [] ∧
         match (stream env chunks acc w).2 with
         | inr full => full = acc ++ concat chunks ∧
                       placeholder_writes new = frames acc chunks
         | inl _ => True
         end.
Proof.
  induction chunks as [|c cs IH]; intros acc w; simpl.
  - exists []. split; [apply only_logs_refl|]. by rewrite app_nil_r.
  - rewrite bind_unfold.
    destruct (markdown_raises env (trace w) ((acc ++ c) ++ cursor))
      as [e|] eqn:Hmd.
    + rewrite (placeholder_markdown_raises _ _ _ Hmd). simpl.
      exists []. split; [apply only_logs_refl | done].
    + rewrite (placeholder_markdown_ok _ _ Hmd), bind_unfold. simpl.
      set (w1 := mkWorld _ _ _ _).
      destruct (IH (acc ++ c) w1) as (new & Hlog & Hgw & Herr & Hres).
      exists ([PlaceholderMarkdown ((acc ++ c) ++ cursor); Sleep 20] ++ new).
      split; [|split; [|split]].
      * eapply only_logs_trans; [|exact Hlog].
        unfold only_logs, w1; simpl. by rewrite <- app_assoc.
      * done.
      * done.
      * destruct (stream env cs (acc ++ c) w1).2 as [e|full]; [done|].
        destruct Hres as [-> Hw]. split; [by rewrite app_assoc|].
        simpl. rewrite Hw. by rewrite <- app_assoc.
Qed.

(** When no write raises, the loop ends normally. *)
Lemma stream_total chunks : ∀ acc w,
  display_works env →
  (stream env chunks acc w).2 = inr (acc ++ concat chunks).
Proof.
  induction chunks as [|c cs IH]; intros acc w Hmd; simpl.
  - by rewrite app_nil_r.
  - rewrite bind_unfold, placeholder_markdown_ok by apply Hmd.
    rewrite bind_unfold. simpl. rewrite IH by done. by rewrite app_assoc.
Qed.

(** The [try] block logs the spinner, one gateway call with the prompt as
    its argument, and the stream.  It touches the conversation only when it
    ends normally, by one assistant turn holding the gateway's answer. *)
Lemma try_body_spec prompt w :
  ∃ new,
    trace (try_body env prompt w).1 = trace w ++ new ∧
    files (try_body env prompt w).1 = files w ∧
    drawn (try_body env prompt w).1 = drawn w ∧
    gateway_calls new = [prompt] ∧ errors new = [] ∧
    match (try_body env prompt w).2 with
    | inl _ => messages (try_body env prompt w).1 = messages w
    | inr _ =>
        ∃ response,
          llm_invoke env (trace w ++ [Spinner (Py.lit "Thinking...")])
            load_llm prompt = inr response ∧
          messages (try_body env prompt w).1 =
            messages w ++ [mkTurn (Py.lit "assistant") response] ∧
          placeholder_writes new = frames [] (Py.iter response) ++ [response]
    end.
Proof.
  unfold try_body. rewrite bind_unfold. simpl.
  set (w0 := mkWorld _ _ _ _). rewrite bind_unfold. unfold invoke at 1.
  simpl. set (w1 := mkWorld _ _ _ _).
  destruct (llm_invoke env _ load_llm prompt) as [e|response] eqn:Hgw.
  { exists [Spinner (Py.lit "Thinking..."); Invoke load_llm prompt].
    simpl. rewrite <- app_assoc. repeat split. }
  rewrite bind_unfold.
  destruct (stream_spec (Py.iter response) [] w1)
    as (new & (Hm & Ht & Hf & Hd) & Hcalls & Herrs & Hres).
  destruct (stream env (Py.iter response) [] w1) as [w2 [e|full]] eqn:Hs;
    simpl in *.
  { exists ([Spinner (Py.lit "Thinking..."); Invoke load_llm prompt] ++ new).
    rewrite Ht, Hf, Hd, Hm. simpl. rewrite Hcalls, Herrs.
    rewrite <- !app_assoc. repeat split. }
  destruct Hres as [-> Hwr]. rewrite Py_iter_concat in *.
  rewrite bind_unfold.
  destruct (markdown_raises env (trace w2) response) as [e|] eqn:Hmd.
  { rewrite (placeholder_markdown_raises _ _ _ Hmd). simpl.
    exists ([Spinner (Py.lit "Thinking..."); Invoke load_llm prompt] ++ new).
    rewrite Ht, Hf, Hd, Hm. simpl. rewrite Hcalls, Herrs.
    rewrite <- !app_assoc. repeat split. }
  rewrite (placeholder_markdown_ok _ _ Hmd). simpl.
  exists ([Spinner (Py.lit "Thinking..."); Invoke load_llm prompt] ++ new
            ++ [PlaceholderMarkdown response]).
  rewrite Ht, Hf, Hd, Hm. simpl.
  unfold gateway_calls, errors, placeholder_writes in *.
  rewrite !omap_app, Hcalls, Herrs, Hwr. simpl.
  repeat split; try done.
  - by rewrite <- !app_assoc.
  - by exists response.
Qed.

(** With a gateway that answers and a display that works, the [try] block
    ends normally. *)
Lemma try_body_total prompt response w :
  answers env prompt response → display_works env →
  (try_body env prompt w).2 = inr tt.
Proof.
  intros Hgw Hmd.
  unfold try_body. rewrite bind_unfold. simpl. rewrite bind_unfold.
  unfold invoke at 1. simpl. rewrite Hgw, bind_unfold.
  pose proof (stream_total (Py.iter response) []
                (mkWorld (messages w)
                   ((trace w ++ [Spinner (Py.lit "Thinking...")])
                      ++ [Invoke load_llm prompt]) (files w) (drawn w)) Hmd)
    as Hs.
  destruct (stream env _ _ _) as [w2 r]. simpl in Hs. subst r.
  rewrite bind_unfold, placeholder_markdown_ok by apply Hmd. done.
Qed.

(** A gateway call that raises makes the [try] block raise the same. *)
Lemma try_body_gateway_raises prompt w e :
  llm_invoke env (trace w ++ [Spinner (Py.lit "Thinking...")]) load_llm prompt
    = inl e →
  (try_body env prompt w).2 = inl e.
Proof.
  intros Hgw. unfold try_body. rewrite bind_unfold. cbn [emit].
  rewrite bind_unfold. unfold invoke. cbn [trace]. by rewrite Hgw.
Qed.

Lemma on_prompt_unfold prompt w :
  on_prompt env prompt w =
    try_except (try_body env prompt) except_clause (at_try prompt w).
Proof. reflexivity. Qed.

(** What the block under the [if] does in each case: it calls the gateway
    once with the prompt; it ends normally unless the [try] block raised
    something that is not an [Exception]. *)
Lemma on_prompt_spec prompt w :
  ∃ new,
    trace (on_prompt env prompt w).1 = trace w ++ opening prompt ++ new ∧
    gateway_calls new = [prompt] ∧
    match (try_body env prompt (at_try prompt w)).2 with
    | inl e =>
        messages (on_prompt env prompt w).1 =
          messages w ++ [mkTurn (Py.lit "user") prompt] ∧
        if is_Exception e
        then (on_prompt env prompt w).2 = inr tt ∧
             errors new = [Py.lit "An error occurred: " ++ exn_str e]
        else (on_prompt env prompt w).2 = inl e ∧ errors new = []
    | inr _ =>
        (on_prompt env prompt w).2 = inr tt ∧
        ∃ response,
          llm_invoke env
            (trace (at_try prompt w) ++ [Spinner (Py.lit "Thinking...")])
            load_llm prompt = inr response ∧
          messages (on_prompt env prompt w).1 =
            messages w ++ [mkTurn (Py.lit "user") prompt;
                           mkTurn (Py.lit "assistant") response] ∧
          errors new = [] ∧
          placeholder_writes new = frames [] (Py.iter response) ++ [response]
    end.
Proof.
  rewrite on_prompt_unfold. unfold try_except.
  destruct (try_body_spec prompt (at_try prompt w))
    as (new & Ht & Hf & Hd & Hcalls & Herrs & Hres).
  destruct (try_body env prompt (at_try prompt w)) as [w' [e|[]]] eqn:Htry;
    simpl in *.
  - destruct (is_Exception e) eqn:Hkind.
    + exists (new ++ [Error (Py.lit "An error occurred: " ++ exn_str e)]).
      simpl. rewrite Ht, Hres. unfold gateway_calls, errors in *.
      rewrite !omap_app, Hcalls, Herrs. simpl.
      repeat split; try done.
      unfold opening. by rewrite <- !app_assoc.
    + exists new. simpl. rewrite Ht, Hres.
      repeat split; try done.
      unfold opening. by rewrite <- !app_assoc.
  - exists new.
    destruct Hres as (response & Hgw & Hm & Hwr).
    rewrite Ht. repeat split; try done.
    + unfold opening. by rewrite <- !app_assoc.
    + exists response. rewrite Hm.
      split; [done|]. split; [by rewrite <- app_assoc | done].
Qed.

(** With a gateway that answers [response] and a display that works, the
    block commits both turns and shows every frame. *)
Lemma on_prompt_answered prompt response w :
  answers env prompt response → display_works env →
  messages (on_prompt env prompt w).1 =
    messages w ++ [mkTurn (Py.lit "user") prompt;
                   mkTurn (Py.lit "assistant") response] ∧
  ∃ new,
    trace (on_prompt env prompt w).1 = trace w ++ opening prompt ++ new ∧
    gateway_calls new = [prompt] ∧ errors new = [] ∧
    placeholder_writes new = prefixes_with_cursor response ++ [response].
Proof.
  intros Hgw Hmd.
  destruct (on_prompt_spec prompt w) as (new & Ht & Hcalls & Hres).
  rewrite (try_body_total prompt response _ Hgw Hmd) in Hres.
  destruct Hres as (_ & r & Hr & Hm & Herr & Hwr).
  rewrite Hgw in Hr. injection Hr as <-.
  split; [done|]. exists new. by rewrite <- frames_prefixes.
Qed.

Lemma empty_submission_is_noop_aux submitted w :
  submitted = None ∨ submitted = Some [] →
  messages (chat_input_handler env submitted w).1 = messages w ∧
  (chat_input_handler env submitted w).1 =
    (emit (ChatInput (Py.lit "What would you like to discuss?")) w).1.
Proof. by intros [-> | ->]. Qed.

Lemma handler_on_prompt prompt w :
  prompt ≠ [] →
  chat_input_handler env (Some prompt) w =
    on_prompt env prompt
      (emit (ChatInput (Py.lit "What would you like to discuss?")) w).1.
Proof. intros Hne. by destruct prompt. Qed.

End Facts.

(** ** The submission handler *)

(** C1, as amended: a submission that is absent or the empty string leaves
    the conversation as it was and reaches no gateway; the handler only
    draws the input box. *)
Theorem empty_submission_is_noop (env : Env) (submitted : option (list N)) (w : World) :
  submitted = None ∨ submitted = Some [] →
  messages (chat_input_handler env submitted w).1 = messages w ∧
  (chat_input_handler env submitted w).2 = inr tt ∧
  ∃ new, trace (chat_input_handler env submitted w).1 = trace w ++ new ∧
         gateway_calls new = [].
Proof.
  intros [-> | ->]; simpl; (split; [done|]); (split; [done|]);
    by exists [ChatInput (Py.lit "What would you like to discuss?")].
Qed.

Lemma empty_submission_is_noop_witness :
  messages (chat_input_handler (stub_env id) (Some []) w_empty).1 = [] ∧
  gateway_calls (trace (chat_input_handler (stub_env id) (Some []) w_empty).1) = [].
Proof.
  destruct (empty_submission_is_noop (stub_env id) (Some []) w_empty)
    as (Hm & _ & new & Ht & Hc); [by right|].
  split; [exact Hm|]. rewrite Ht. exact Hc.
Defined.

(** C1, as stated, fails: a submission of one space is blank in the spec's
    sense, yet the handler appends a user turn and an assistant turn and
    calls the gateway with it. *)
Lemma whitespace_submission_is_forwarded :
  spec_blank [32] = true ∧
  messages (chat_input_handler (stub_env id) (Some [32]) w_empty).1 =
    [mkTurn (Py.lit "user") [32]; mkTurn (Py.lit "assistant") [32]] ∧
  messages (chat_input_handler (stub_env id) (Some [32]) w_empty).1 ≠
    messages w_empty ∧
  gateway_calls (trace (chat_input_handler (stub_env id) (Some [32]) w_empty).1)
    = [[32]].
Proof. repeat split; try reflexivity. discriminate. Qed.

(** C2: when the [try] block of a submission raises an exception [e], an
    instance of [Exception], be it at the gateway call or at a write of the
    stream, the block under the [if] still ends normally, the conversation
    has gained the user turn and nothing else, and exactly one error
    annotation is shown, which ends with [str(e)]. *)
Theorem failure_commits_no_assistant_turn (env : Env) (prompt : list N) (w : World) (e : exn) :
  (try_body env prompt (at_try prompt w)).2 = inl e →
  is_Exception e = true →
  (on_prompt env prompt w).2 = inr tt ∧
  messages (on_prompt env prompt w).1 =
    messages w ++ [mkTurn (Py.lit "user") prompt] ∧
  ∃ new, trace (on_prompt env prompt w).1 = trace w ++ new ∧
         errors new = [Py.lit "An error occurred: " ++ exn_str e].
Proof.
  intros Hraise Hkind.
  destruct (on_prompt_spec env prompt w) as (new & Ht & _ & Hres).
  rewrite Hraise, Hkind in Hres. destruct Hres as (Hm & Hret & Herr).
  split; [done|]. split; [done|].
  exists (opening prompt ++ new). split; [done|].
  unfold errors in *. by rewrite omap_app, Herr.
Qed.

Lemma failure_commits_no_assistant_turn_witness :
  messages (on_prompt down_env (Py.lit "hello") w_empty).1 =
    [mkTurn (Py.lit "user") (Py.lit "hello")] ∧
  errors (trace (on_prompt down_env (Py.lit "hello") w_empty).1) =
    [Py.lit "An error occurred: connection refused"].
Proof.
  destruct (failure_commits_no_assistant_turn down_env (Py.lit "hello") w_empty
              (mkExn true (Py.lit "connection refused")))
    as (_ & Hm & new & Ht & He); [reflexivity | reflexivity |].
  split; [exact Hm|]. rewrite Ht. exact He.
Defined.

(** C6: a non-empty submission reaches the gateway exactly once, and the
    argument of that call is the submitted string itself, whatever the
    conversation held before. *)
Theorem gateway_gets_the_raw_prompt (env : Env) (prompt : list N) (w : World) :
  prompt ≠ [] →
  ∃ new, trace (chat_input_handler env (Some prompt) w).1 = trace w ++ new ∧
         gateway_calls new = [prompt].
Proof.
  intros Hne. rewrite handler_on_prompt by done.
  destruct (on_prompt_spec env prompt
              (emit (ChatInput (Py.lit "What would you like to discuss?")) w).1)
    as (new & Ht & Hcalls & _).
  exists ([ChatInput (Py.lit "What would you like to discuss?")]
            ++ opening prompt ++ new).
  split.
  - rewrite Ht. simpl. by rewrite <- app_assoc.
  - done.
Qed.

Lemma gateway_gets_the_raw_prompt_witness :
  gateway_calls
    (trace (chat_input_handler (stub_env id) (Some (Py.lit "and then?"))
              (mkWorld [mkTurn (Py.lit "user") (Py.lit "hello");
                        mkTurn (Py.lit "assistant") (Py.lit "hi there")]
                 [] ∅ O)).1)
  = [Py.lit "and then?"].
Proof.
  destruct (gateway_gets_the_raw_prompt (stub_env id) (Py.lit "and then?")
              (mkWorld [mkTurn (Py.lit "user") (Py.lit "hello");
                        mkTurn (Py.lit "assistant") (Py.lit "hi there")]
                 [] ∅ O))
    as (new & Ht & Hc); [discriminate|].
  rewrite Ht. exact Hc.
Defined.

(** C4: for a response of [N] characters the placeholder is written
    [N + 1] times: the [k]-th write, for [k] from 1 to [N], is the first
    [k] characters followed by the cursor, and the last write is the whole
    response without it. *)
Theorem stream_writes_N_plus_1_frames (env : Env) (prompt response : list N) (w : World) :
  prompt ≠ [] → answers env prompt response → display_works env →
  ∃ new,
    trace (chat_input_handler env (Some prompt) w).1 = trace w ++ new ∧
    placeholder_writes new = prefixes_with_cursor response ++ [response] ∧
    length (placeholder_writes new) = (length response + 1)%nat ∧
    (∀ k, (k < length response)%nat →
          placeholder_writes new !! k = Some (take (S k) response ++ cursor)) ∧
    last (placeholder_writes new) = Some response.
Proof.
  intros Hne Hgw Hmd. rewrite handler_on_prompt by done.
  destruct (on_prompt_answered env prompt response
              (emit (ChatInput (Py.lit "What would you like to discuss?")) w).1
              Hgw Hmd)
    as (_ & new & Ht & _ & _ & Hwr).
  exists ([ChatInput (Py.lit "What would you like to discuss?")]
            ++ opening prompt ++ new).
  assert (placeholder_writes
            ([ChatInput (Py.lit "What would you like to discuss?")]
               ++ opening prompt ++ new)
          = prefixes_with_cursor response ++ [response]) as Hall.
  { by rewrite <- Hwr. }
  rewrite Hall. split; [|split; [|split; [|split]]].
  - rewrite Ht. simpl. by rewrite <- app_assoc.
  - done.
  - by rewrite length_app, prefixes_with_cursor_length.
  - intros k Hk. rewrite lookup_app_l
      by (by rewrite prefixes_with_cursor_length).
    rewrite <- frames_prefixes. by apply frames_iter_lookup.
  - by rewrite last_snoc.
Qed.

Lemma stream_writes_N_plus_1_frames_witness :
  placeholder_writes
    (trace (chat_input_handler (stub_env (λ _, Py.lit "hi")) (Some (Py.lit "hello"))
              w_empty).1)
  = [Py.lit "h" ++ cursor; Py.lit "hi" ++ cursor; Py.lit "hi"].
Proof.
  destruct (stream_writes_N_plus_1_frames (stub_env (λ _, Py.lit "hi"))
              (Py.lit "hello") (Py.lit "hi") w_empty)
    as (new & Ht & Hwr & _); [discriminate | by intros ?? | by intros ?? |].
  rewrite Ht. exact Hwr.
Defined.

(** C5: when the [try] block of a submission ends normally, the turn it
    appended is the last of the conversation, has the role assistant, and
    its content is the concatenation of the increments of the gateway's
    response, which is the response itself. *)
Theorem completed_turn_is_the_response (env : Env) (prompt : list N) (w : World) :
  (try_body env prompt (at_try prompt w)).2 = inr tt →
  ∃ response,
    llm_invoke env (trace (at_try prompt w) ++ [Spinner (Py.lit "Thinking...")])
      load_llm prompt = inr response ∧
    messages (on_prompt env prompt w).1 =
      messages w ++ [mkTurn (Py.lit "user") prompt;
                     mkTurn (Py.lit "assistant") (concat (Py.iter response))] ∧
    last (messages (on_prompt env prompt w).1) =
      Some (mkTurn (Py.lit "assistant") (concat (Py.iter response))) ∧
    concat (Py.iter response) = response.
Proof.
  intros Hok.
  destruct (on_prompt_spec env prompt w) as (new & _ & _ & Hres).
  rewrite Hok in Hres. destruct Hres as (_ & response & Hgw & Hm & _).
  exists response. rewrite Py_iter_concat, Hm. repeat split; try done.
  change (messages w ++ [mkTurn (Py.lit "user") prompt;
                         mkTurn (Py.lit "assistant") response])
    with (messages w ++ [mkTurn (Py.lit "user") prompt]
            ++ [mkTurn (Py.lit "assistant") response]).
  by rewrite app_assoc, last_snoc.
Qed.

Lemma completed_turn_is_the_response_witness :
  messages (on_prompt (stub_env (λ _, Py.lit "hi there")) (Py.lit "hello") w_empty).1
  = [mkTurn (Py.lit "user") (Py.lit "hello");
     mkTurn (Py.lit "assistant") (Py.lit "hi there")].
Proof.
  destruct (completed_turn_is_the_response (stub_env (λ _, Py.lit "hi there"))
              (Py.lit "hello") w_empty)
    as (response & Hgw & Hm & _ & Hc); [reflexivity|].
  rewrite Hm, Hc. injection Hgw as <-. reflexivity.
Defined.

(** C9: when the gateway answers the empty string, the placeholder is
    written once, with the empty string and no cursor, and an assistant
    turn with empty content is appended after the user turn. *)
Theorem empty_response_is_committed (env : Env) (prompt : list N) (w : World) :
  prompt ≠ [] → answers env prompt [] → display_works env →
  messages (chat_input_handler env (Some prompt) w).1 =
    messages w ++ [mkTurn (Py.lit "user") prompt;
                   mkTurn (Py.lit "assistant") []] ∧
  ∃ new,
    trace (chat_input_handler env (Some prompt) w).1 = trace w ++ new ∧
    placeholder_writes new = [[]] ∧ errors new = [].
Proof.
  intros Hne Hgw Hmd. rewrite handler_on_prompt by done.
  destruct (on_prompt_answered env prompt []
              (emit (ChatInput (Py.lit "What would you like to discuss?")) w).1
              Hgw Hmd)
    as (Hm & new & Ht & _ & Herr & Hwr).
  split; [done|].
  exists ([ChatInput (Py.lit "What would you like to discuss?")]
            ++ opening prompt ++ new).
  split; [|split].
  - rewrite Ht. simpl. by rewrite <- app_assoc.
  - done.
  - done.
Qed.

Lemma empty_response_is_committed_witness :
  messages (chat_input_handler (stub_env (λ _, [])) (Some (Py.lit "hello")) w_empty).1
  = [mkTurn (Py.lit "user") (Py.lit "hello"); mkTurn (Py.lit "assistant") []].
Proof.
  destruct (empty_response_is_committed (stub_env (λ _, [])) (Py.lit "hello")
              w_empty)
    as (Hm & _); [discriminate | by intros ?? | by intros ?? |].
  exact Hm.
Defined.

(** ** The upload helper *)

Section Upload.

Context (env : Env).

(** One turn of the loop of [mkstemp_inner]. *)
Lemma mkstemp_inner_step tries dir pre suf w :
  mkstemp_inner env (S tries) dir pre suf w =
    match files w !! candidate env dir pre suf (drawn w) 0 with
    | Some _ =>
        mkstemp_inner env tries dir pre suf
          (mkWorld (messages w) (trace w) (files w) (S (drawn w)))
    | None =>
        match os_open_error env (candidate env dir pre suf (drawn w) 0) with
        | Some e =>
            (mkWorld (messages w) (trace w) (files w) (S (drawn w)), inl e)
        | None =>
            (mkWorld (messages w) (trace w)
               (<[candidate env dir pre suf (drawn w) 0 := []]> (files w))
               (S (drawn w)),
             inr (candidate env dir pre suf (drawn w) 0))
        end
    end.
Proof.
  unfold candidate. rewrite Nat.add_0_r.
  cbn [mkstemp_inner]. rewrite bind_unfold. cbn [next_name].
  rewrite bind_unfold. unfold open_excl. cbn [files messages trace drawn].
  destruct (files w !! _); [done|]. by destruct (os_open_error env _).
Qed.

(** [mkstemp_inner] leaves conversation and log alone; when it raises it
    has made no file; when it returns, it returns the first candidate that
    was free, now an empty file. *)
Lemma mkstemp_inner_spec dir pre suf tries : ∀ w,
  messages (mkstemp_inner env tries dir pre suf w).1 = messages w ∧
  trace (mkstemp_inner env tries dir pre suf w).1 = trace w ∧
  match (mkstemp_inner env tries dir pre suf w).2 with
  | inl _ => files (mkstemp_inner env tries dir pre suf w).1 = files w
  | inr file =>
      ∃ k, (k < tries)%nat ∧ file = candidate env dir pre suf (drawn w) k ∧
           files w !! file = None ∧
           os_open_error env file = None ∧
           files (mkstemp_inner env tries dir pre suf w).1
             = <[file := []]> (files w)
  end.
Proof.
  induction tries as [|tries IH]; intros w; [done|].
  rewrite mkstemp_inner_step.
  destruct (files w !! candidate env dir pre suf (drawn w) 0) as [old|] eqn:Hfile.
  - set (w1 := mkWorld (messages w) (trace w) (files w) (S (drawn w))).
    destruct (IH w1) as (Hm & Ht & Hres).
    split; [done|]. split; [done|].
    destruct (mkstemp_inner env tries dir pre suf w1).2 as [e|f]; [done|].
    destruct Hres as (k & Hk & -> & Hfree & Hopen & Hfiles).
    exists (S k). split; [lia|]. split; [|done].
    unfold candidate, w1. cbn [drawn]. by rewrite Nat.add_succ_r.
  - destruct (os_open_error env (candidate env dir pre suf (drawn w) 0))
      as [e|] eqn:Hopen; [done|].
    split; [done|]. split; [done|].
    exists O. split; [lia|]. done.
Qed.

(** When one of the next [tries] candidates is free, and [os.open] fails on
    none of the candidates up to it, a file is made. *)
Lemma mkstemp_inner_total dir pre suf tries : ∀ w k,
  (k < tries)%nat → files w !! candidate env dir pre suf (drawn w) k = None →
  (∀ j, (j ≤ k)%nat →
        os_open_error env (candidate env dir pre suf (drawn w) j) = None) →
  ∃ file, (mkstemp_inner env tries dir pre suf w).2 = inr file.
Proof.
  induction tries as [|tries IH]; intros w k Hk Hfree Hopen; [lia|].
  rewrite mkstemp_inner_step.
  destruct (files w !! candidate env dir pre suf (drawn w) 0) as [old|] eqn:Hfile.
  - destruct k as [|k]; [congruence|].
    apply (IH (mkWorld (messages w) (trace w) (files w) (S (drawn w))) k);
      [lia| |].
    + unfold candidate in *. cbn [drawn files].
      by rewrite Nat.add_succ_r in Hfree.
    + intros j Hj. specialize (Hopen (S j) ltac:(lia)).
      unfold candidate in *. cbn [drawn].
      by rewrite Nat.add_succ_r in Hopen.
  - rewrite (Hopen O ltac:(lia)). by eexists.
Qed.

(** [process_file] on an upload: it raises and changes no existing file, or
    it returns the path of a file that did not exist and now holds the
    upload's bytes. *)
Lemma process_file_some up w :
  messages (process_file env (Some up) w).1 = messages w ∧
  trace (process_file env (Some up) w).1 = trace w ∧
  match (process_file env (Some up) w).2 with
  | inl _ => files (process_file env (Some up) w).1 = files w
  | inr None => False
  | inr (Some path) =>
      ∃ k, (k < TMP_MAX env)%nat ∧
           path = candidate env (tempdir env) (Py.lit "tmp")
                    (path_suffix (name up)) (drawn w) k ∧
           files w !! path = None ∧
           files (process_file env (Some up) w).1
             = <[path := getvalue up]> (files w)
  end.
Proof.
  unfold process_file, with_file, NamedTemporaryFile.
  destruct (mkstemp_inner_spec (tempdir env) (Py.lit "tmp")
              (path_suffix (name up)) (TMP_MAX env) w) as (Hm & Ht & Hres).
  rewrite !bind_unfold.
  destruct (mkstemp_inner env (TMP_MAX env) _ _ _ w) as [w1 [e|file]]; simpl in *;
    [done|].
  destruct Hres as (k & Hk & -> & Hfree & _ & Hfiles).
  split; [done|]. split; [done|].
  exists k. split; [done|]. split; [done|]. split; [done|].
  by rewrite Hfiles, alter_insert_eq.
Qed.

End Upload.

Lemma path_join_suffix (a b : list N) : b `suffix_of` path_join a b.
Proof.
  unfold path_join. destruct (last a) as [c|]; [|done].
  destruct (N.eqb c 47).
  - by apply suffix_app_r.
  - apply suffix_app_r. by apply (suffix_app_r _ _ [47]).
Qed.

Lemma Py_split_no_sep (sep : N) (s : list N) :
  sep ∉ s → Py.split sep s = [s].
Proof.
  induction s as [|x s IH]; intros Hsep; [done|].
  apply not_elem_of_cons in Hsep as [Hx Hs]. cbn [Py.split].
  destruct (N.eqb_spec x sep) as [->|_]; [done|]. by rewrite IH.
Qed.

Lemma Py_rfind_None (c : N) (s : list N) : c ∉ s → Py.rfind c s = None.
Proof.
  induction s as [|x s IH]; intros Hc; [done|].
  apply not_elem_of_cons in Hc as [Hx Hs]. cbn [Py.rfind]. rewrite IH by done.
  destruct (N.eqb_spec x c) as [->|_]; done.
Qed.

Lemma Py_rfind_last (c : N) (stem ext : list N) :
  c ∉ ext → Py.rfind c (stem ++ c :: ext) = Some (length stem).
Proof.
  intros Hc. induction stem as [|x stem IH]; cbn [app Py.rfind length].
  - by rewrite Py_rfind_None, N.eqb_refl.
  - by rewrite IH.
Qed.

(** What the modelled [suffix] is on a plain file name [stem.ext]: the
    last dot and the extension after it. *)
Lemma path_suffix_ext (stem ext : list N) :
  stem ≠ [] → 47 ∉ stem → ext ≠ [] → 46 ∉ ext → 47 ∉ ext →
  path_suffix (stem ++ [46] ++ ext) = [46] ++ ext.
Proof.
  intros Hstem Hslash1 Hext Hdot Hslash2.
  assert (path_name (stem ++ [46] ++ ext) = stem ++ [46] ++ ext) as Hname.
  { unfold path_name. rewrite Py_split_no_sep.
    - rewrite filter_cons_True; [done|]. split.
      + by destruct stem.
      + destruct stem as [|x [|y stem]]; [done| |done].
        destruct ext; [done|]. done.
    - rewrite !not_elem_of_app, not_elem_of_cons. repeat split; try done.
      apply not_elem_of_nil. }
  unfold path_suffix. rewrite Hname. cbn [app].
  rewrite Py_rfind_last by done.
  assert ((Nat.ltb 0 (length stem)
           && Nat.ltb (length stem) (length (stem ++ 46 :: ext) - 1))%bool
          = true) as ->.
  { rewrite length_app. cbn [length]. apply andb_true_iff.
    split; apply Nat.ltb_lt; destruct stem, ext; cbn [length]; try done; lia. }
  by rewrite drop_app_length.
Qed.

(** C10: [process_file] returns [None] exactly when it is given [None], and
    then does nothing.  Given an upload, a free path among the next
    [TMP_MAX] candidates of [tempfile], and an [os.open] that fails on none
    of the candidates up to it, it returns one of these candidates: a path
    at which no file existed, whose name ends with the suffix of the
    upload's name (for a plain file name [stem.ext]: with [.ext]), and at
    which, after the call, there is a file holding the upload's bytes. *)
Theorem process_file_result (env : Env) (uploaded : option UploadedFile) (w : World) :
  ((process_file env uploaded w).2 = inr None ↔ uploaded = None) ∧
  (uploaded = None → (process_file env uploaded w).1 = w) ∧
  ∀ up k,
    uploaded = Some up → (k < TMP_MAX env)%nat →
    files w !! candidate env (tempdir env) (Py.lit "tmp")
                 (path_suffix (name up)) (drawn w) k = None →
    (∀ j, (j ≤ k)%nat →
          os_open_error env
            (candidate env (tempdir env) (Py.lit "tmp")
               (path_suffix (name up)) (drawn w) j) = None) →
    ∃ path j,
      (process_file env uploaded w).2 = inr (Some path) ∧
      (j < TMP_MAX env)%nat ∧
      path = candidate env (tempdir env) (Py.lit "tmp")
               (path_suffix (name up)) (drawn w) j ∧
      path_suffix (name up) `suffix_of` path ∧
      (∀ stem ext,
         name up = stem ++ [46] ++ ext →
         stem ≠ [] → 47 ∉ stem → ext ≠ [] → 46 ∉ ext → 47 ∉ ext →
         [46] ++ ext `suffix_of` path) ∧
      files w !! path = None ∧
      files (process_file env uploaded w).1 = <[path := getvalue up]> (files w) ∧
      files (process_file env uploaded w).1 !! path = Some (getvalue up).
Proof.
  split; [|split].
  - split.
    + destruct uploaded as [up|]; [|done]. intros Hnone.
      pose proof (process_file_some env up w) as (_ & _ & Hres).
      by rewrite Hnone in Hres.
    + by intros ->.
  - by intros ->.
  - intros up k -> Hk Hfree Hopen.
    pose proof (process_file_some env up w) as (_ & _ & Hres).
    destruct (mkstemp_inner_total env (tempdir env) (Py.lit "tmp")
                (path_suffix (name up)) (TMP_MAX env) w k Hk Hfree Hopen)
      as [file Hfile].
    assert (∃ path, (process_file env (Some up) w).2 = inr (Some path))
      as [path Hpath].
    { unfold process_file, with_file, NamedTemporaryFile.
      rewrite !bind_unfold.
      destruct (mkstemp_inner env (TMP_MAX env) _ _ _ w) as [w1 r].
      simpl in Hfile. subst r. by eexists. }
    rewrite Hpath in Hres. destruct Hres as (j & Hj & Heq & Hnew & Hfiles).
    assert (path_suffix (name up) `suffix_of` path) as Hsuf.
    { rewrite Heq. etrans; [|apply path_join_suffix].
      by apply suffix_app_r, suffix_app_r. }
    exists path, j. split; [done|]. split; [done|]. split; [done|].
    split; [done|]. split; [|split; [done|]].
    + intros stem ext Hname Hstem Hs1 Hext Hdot Hs2.
      rewrite Hname, path_suffix_ext in Hsuf by done. exact Hsuf.
    + split; [done|]. by rewrite Hfiles, lookup_insert_eq.
Qed.

Lemma process_file_result_witness :
  ∃ path,
    (process_file (stub_env id)
       (Some (mkUpload (Py.lit "notes.final.txt") [x68; x69])) w_empty).2
      = inr (Some path) ∧
    Py.lit ".txt" `suffix_of` path ∧
    files (process_file (stub_env id)
             (Some (mkUpload (Py.lit "notes.final.txt") [x68; x69])) w_empty).1
      !! path = Some [x68; x69].
Proof.
  destruct (process_file_result (stub_env id)
              (Some (mkUpload (Py.lit "notes.final.txt") [x68; x69])) w_empty)
    as (_ & _ & H).
  destruct (H (mkUpload (Py.lit "notes.final.txt") [x68; x69]) O)
    as (path & j & Hret & _ & _ & _ & Hext & _ & _ & Hlook).
  - reflexivity.
  - vm_compute; lia.
  - reflexivity.
  - intros j Hj. destruct j; [vm_compute; reflexivity | lia].
  - exists path. split; [exact Hret|]. split; [|exact Hlook].
    apply (Hext (Py.lit "notes.final") (Py.lit "txt")).
    + reflexivity.
    + discriminate.
    + apply (bool_decide_unpack (47 ∉ Py.lit "notes.final")).
      vm_compute. exact I.
    + discriminate.
    + apply (bool_decide_unpack (46 ∉ Py.lit "txt")). vm_compute. exact I.
    + apply (bool_decide_unpack (47 ∉ Py.lit "txt")). vm_compute. exact I.
Defined.

(** ** Runs of the script *)

Section Runs.

Context (env : Env).

Lemma display_messages_spec ms : ∀ w,
  (display_messages ms w).2 = inr tt ∧
  messages (display_messages ms w).1 = messages w.
Proof.
  induction ms as [|m ms IH]; intros w; [done|].
  cbn [display_messages]. run_steps.
  set (w1 := mkWorld _ _ _ _). destruct (IH w1) as [Hret Hm].
  split; [done|]. by rewrite Hm.
Qed.

(** The handler only appends, and what it appends is the user turn of a
    non-empty submission, followed or not by an assistant turn. *)
Lemma chat_input_handler_appends submitted w :
  ∃ added,
    messages (chat_input_handler env submitted w).1 = messages w ++ added ∧
    appended_by submitted added.
Proof.
  destruct submitted as [[|c prompt]|].
  - exists []. by rewrite app_nil_r.
  - rewrite handler_on_prompt by done.
    destruct (on_prompt_spec env (c :: prompt)
                (emit (ChatInput (Py.lit "What would you like to discuss?")) w).1)
      as (new & _ & _ & Hres).
    destruct (try_body env _ _).2 as [e|[]].
    + destruct Hres as [-> _]. eexists. split; [done|]. by left.
    + destruct Hres as (_ & r & _ & -> & _). eexists. split; [done|].
      right. by exists r.
  - exists []. by rewrite app_nil_r.
Qed.

(** The clear button: the two statements empty the conversation. *)
Lemma clear_conversation_spec w :
  (clear_conversation w).2 = inr tt ∧ messages (clear_conversation w).1 = [].
Proof. done. Qed.

(** The sidebar either stops at a failed upload, with the conversation as
    it was, or ends normally with the conversation emptied if the button
    was clicked and as it was otherwise. *)
Lemma sidebar_spec i w :
  match (sidebar env i w).2 with
  | inl _ => messages (sidebar env i w).1 = messages w ∧
             uploaded_file i ≠ None
  | inr _ => messages (sidebar env i w).1 =
               if clear_clicked i then [] else messages w
  end.
Proof.
  unfold sidebar. run_steps.
  destruct (uploaded_file i) as [up|].
  - run_steps.
    set (w0 := mkWorld _ _ _ _).
    pose proof (process_file_some env up w0) as (Hm & _ & _).
    destruct (process_file env (Some up) w0) as [w1 [e|r]]; simpl in *.
    + done.
    + destruct (clear_clicked i); simpl; done.
  - destruct (clear_clicked i); simpl; done.
Qed.

(** The conversation after the script: the sidebar runs on a world with
    the same conversation, and when it ends normally the handler runs on a
    world with the conversation the sidebar left. *)
Lemma script_spec i w :
  ∃ w0, messages w0 = messages w ∧
    match (sidebar env i w0).2 with
    | inl _ => messages (script env i w).1 = messages (sidebar env i w0).1
    | inr _ =>
        ∃ w2, messages w2 = messages (sidebar env i w0).1 ∧
              messages (script env i w).1 =
                messages (chat_input_handler env (submitted i) w2).1
    end.
Proof.
  unfold script. run_steps.
  set (w0 := mkWorld _ _ _ _). exists w0. split; [done|].
  destruct (sidebar env i w0) as [w1 [e|[]]]; cbn [fst snd]; [done|].
  rewrite !bind_unfold.
  pose proof (display_messages_spec (messages w1) w1) as [Hret Hm].
  destruct (display_messages (messages w1) w1) as [w2 r]. simpl in Hret, Hm.
  subst r. exists w2. split; [done|].
  rewrite !bind_unfold.
  by destruct (chat_input_handler env (submitted i) w2) as [w3 [e|[]]].
Qed.

Lemma run_conversation p i :
  conversation (run env p i) =
    messages (script env i (mkWorld (conversation p) (log p) (disk p)
                              (names_drawn p))).1.
Proof. reflexivity. Qed.

(** A run appends to the conversation, or, when the button was clicked,
    empties it and appends to that; what it appends is what handling the
    submission appends. *)
Lemma run_appends_or_resets p i :
  ∃ added,
    appended_in_run i added ∧
    ((clear_clicked i = false ∨ uploaded_file i ≠ None) ∧
       conversation (run env p i) = conversation p ++ added
     ∨ clear_clicked i = true ∧ conversation (run env p i) = added).
Proof.
  rewrite run_conversation.
  destruct (script_spec i (mkWorld (conversation p) (log p) (disk p)
                             (names_drawn p))) as (w0 & Hw0 & Hscript).
  pose proof (sidebar_spec i w0) as Hside. cbn [messages] in Hw0.
  destruct (sidebar env i w0).2 as [e|[]].
  - destruct Hside as [Hm Hup]. exists []. split; [by left|]. left.
    rewrite Hscript, Hm, Hw0, app_nil_r. split; [by right | done].
  - destruct Hscript as (w2 & Hw2 & ->).
    destruct (chat_input_handler_appends (submitted i) w2)
      as (added & -> & Hadded).
    exists added. split; [by right|]. rewrite Hw2, Hside, Hw0.
    destruct (clear_clicked i); [right | left]; split; try done. by left.
Qed.

(** A run with a click on the button and no attached file keeps nothing of
    the conversation: what is left is what handling the submission
    appended. *)
Lemma run_click_resets p i :
  clear_clicked i = true → uploaded_file i = None →
  ∃ added,
    appended_by (submitted i) added ∧ conversation (run env p i) = added.
Proof.
  intros Hclear Hup. rewrite run_conversation.
  destruct (script_spec i (mkWorld (conversation p) (log p) (disk p)
                             (names_drawn p))) as (w0 & Hw0 & Hscript).
  pose proof (sidebar_spec i w0) as Hside. rewrite Hclear in Hside.
  destruct (sidebar env i w0).2 as [e|[]].
  - by destruct Hside as [_ Hno].
  - destruct Hscript as (w2 & Hw2 & ->).
    destruct (chat_input_handler_appends (submitted i) w2)
      as (added & -> & Hadded).
    exists added. split; [done|]. by rewrite Hw2, Hside.
Qed.

(** A run in which a non-empty prompt is submitted to a stub gateway, with
    a display that works, appends the user turn and the stub's answer. *)
Lemma run_submission g p prompt :
  stub_gateway env g → display_works env → prompt ≠ [] →
  conversation (run env p (submission prompt)) =
    conversation p ++ [mkTurn (Py.lit "user") prompt;
                       mkTurn (Py.lit "assistant") (g prompt)].
Proof.
  intros Hgw Hmd Hne. rewrite run_conversation.
  destruct (script_spec (submission prompt)
              (mkWorld (conversation p) (log p) (disk p) (names_drawn p)))
    as (w0 & Hw0 & Hscript).
  pose proof (sidebar_spec (submission prompt) w0) as Hside.
  cbn [messages] in Hw0.
  destruct (sidebar env (submission prompt) w0).2 as [e|[]].
  - by destruct Hside as [_ Hup].
  - destruct Hscript as (w2 & Hw2 & ->). cbn [submission submitted].
    rewrite handler_on_prompt by done.
    destruct (on_prompt_answered env prompt (g prompt)
                (emit (ChatInput (Py.lit "What would you like to discuss?"))
                   w2).1 (Hgw prompt) Hmd) as [-> _].
    cbn [emit fst messages]. by rewrite Hw2, Hside, Hw0.
Qed.

Lemma runs_submissions g prompts : ∀ p,
  stub_gateway env g → display_works env → Forall (λ s, s ≠ []) prompts →
  conversation (runs env p (map submission prompts)) =
    conversation p ++ dialogue g prompts.
Proof.
  induction prompts as [|prompt prompts IH]; intros p Hgw Hmd Hne.
  - by rewrite app_nil_r.
  - apply Forall_cons in Hne as [Hne1 Hne]. cbn [map runs foldl].
    fold (runs env (run env p (submission prompt)) (map submission prompts)).
    rewrite IH by done. rewrite (run_submission g) by done.
    by rewrite <- app_assoc.
Qed.

(** A run in which only the button is clicked empties the conversation. *)
Lemma run_clear_click p : conversation (run env p clear_click) = [].
Proof.
  rewrite run_conversation.
  destruct (script_spec clear_click
              (mkWorld (conversation p) (log p) (disk p) (names_drawn p)))
    as (w0 & Hw0 & Hscript).
  pose proof (sidebar_spec clear_click w0) as Hside.
  destruct (sidebar env clear_click w0).2 as [e|[]].
  - by destruct Hside as [_ Hup].
  - destruct Hscript as (w2 & Hw2 & ->). cbn [clear_click submitted].
    destruct (empty_submission_is_noop_aux env None w2) as [-> _]; [by left|].
    by rewrite Hw2, Hside.
Qed.

(** Runs without a click on the button only extend the conversation. *)
Lemma runs_extend inputs : ∀ p,
  Forall (λ i, clear_clicked i = false) inputs →
  conversation p `prefix_of` conversation (runs env p inputs).
Proof.
  induction inputs as [|i inputs IH]; intros p Hno; [done|].
  apply Forall_cons in Hno as [Hi Hno]. cbn [runs foldl].
  fold (runs env (run env p i) inputs).
  etrans; [|by apply IH].
  destruct (run_appends_or_resets p i) as (added & _ & [[_ ->]|[Hc _]]).
  - by apply prefix_app_r.
  - congruence.
Qed.

End Runs.

Lemma dialogue_length g prompts :
  length (dialogue g prompts) = (2 * length prompts)%nat.
Proof.
  induction prompts as [|p ps IH]; [done|].
  cbn [dialogue flat_map app length] in *. unfold dialogue in IH. lia.
Qed.

Lemma dialogue_lookup g prompts : ∀ k prompt,
  prompts !! k = Some prompt →
  dialogue g prompts !! (2 * k)%nat = Some (mkTurn (Py.lit "user") prompt) ∧
  dialogue g prompts !! (2 * k + 1)%nat =
    Some (mkTurn (Py.lit "assistant") (g prompt)).
Proof.
  induction prompts as [|p ps IH]; intros k prompt Hk; [done|].
  destruct k as [|k].
  - injection Hk as ->. done.
  - replace (2 * S k)%nat with (S (S (2 * k))) by lia.
    replace (S (S (2 * k)) + 1)%nat with (S (S (2 * k + 1))) by lia.
    apply (IH k prompt Hk).
Qed.

(** C3: starting from a fresh session, [N] non-empty submissions to a stub
    gateway [g] leave exactly [2 * N] turns: for the [k]-th submission a
    user turn with the prompt at position [2 * k] and an assistant turn
    with the stub's answer right after it.  An echoing stub is [g] the
    identity; the scenario of the spec is ["hello"] against the stub that
    always answers ["hi there"]. *)
Theorem submissions_build_the_dialogue (env : Env) (g : list N → list N) (prompts : list (list N)) (tr : list Effect) (fs : gmap (list N) (list byte)) (n : nat) :
  stub_gateway env g → display_works env → Forall (λ s, s ≠ []) prompts →
  conversation (runs env (fresh tr fs n) (map submission prompts))
    = dialogue g prompts ∧
  length (conversation (runs env (fresh tr fs n) (map submission prompts)))
    = (2 * length prompts)%nat ∧
  ∀ k prompt,
    prompts !! k = Some prompt →
    conversation (runs env (fresh tr fs n) (map submission prompts))
      !! (2 * k)%nat = Some (mkTurn (Py.lit "user") prompt) ∧
    conversation (runs env (fresh tr fs n) (map submission prompts))
      !! (2 * k + 1)%nat = Some (mkTurn (Py.lit "assistant") (g prompt)).
Proof.
  intros Hgw Hmd Hne.
  rewrite (runs_submissions env g prompts (fresh tr fs n) Hgw Hmd Hne).
  cbn [conversation fresh session_messages ensure_messages app].
  split; [done|]. split; [apply dialogue_length | apply dialogue_lookup].
Qed.

Lemma submissions_build_the_dialogue_witness :
  conversation (runs (stub_env (λ _, Py.lit "hi there")) p_empty
                  (map submission [Py.lit "hello"]))
  = [mkTurn (Py.lit "user") (Py.lit "hello");
     mkTurn (Py.lit "assistant") (Py.lit "hi there")].
Proof.
  destruct (submissions_build_the_dialogue (stub_env (λ _, Py.lit "hi there"))
              (λ _, Py.lit "hi there") [Py.lit "hello"] [] ∅ O)
    as (Hd & _).
  - intros prompt h llm. reflexivity.
  - intros h t. reflexivity.
  - repeat constructor. discriminate.
  - exact Hd.
Defined.

(** C7: the clear operation leaves the empty conversation, whatever it was
    before, and doing it a second time leaves the same empty conversation;
    this holds for the two statements under the button and for whole runs
    in which the button is clicked. *)
Theorem clear_is_idempotent (env : Env) (w : World) (p : Process) :
  messages (clear_conversation w).1 = [] ∧
  messages (clear_conversation (clear_conversation w).1).1 =
    messages (clear_conversation w).1 ∧
  conversation (run env p clear_click) = [] ∧
  conversation (run env (run env p clear_click) clear_click) =
    conversation (run env p clear_click).
Proof.
  split; [done|]. split; [done|].
  by rewrite !run_clear_click.
Qed.

(** C8: a session starts with the empty conversation.  A run changes the
    conversation in one of two ways only.  Without a click on the button it
    appends: the conversation after the run is the conversation before it
    followed by the new turns.  With a click (and no attached file, whose
    processing could end the run before the button) it resets and appends:
    nothing of the conversation before the run is left, only the new turns.
    The new turns are those of the submission handled in the run: none, the
    user turn, or the user turn and an assistant turn.  Hence over runs
    without a click the conversation at any moment is a prefix of the
    conversation at every later moment. *)
Theorem conversation_is_append_only (env : Env) :
  (∀ tr fs n, conversation (fresh tr fs n) = []) ∧
  (∀ p i, ∃ added,
     appended_in_run i added ∧
     ((clear_clicked i = false ∨ uploaded_file i ≠ None) ∧
        conversation (run env p i) = conversation p ++ added
      ∨ clear_clicked i = true ∧ conversation (run env p i) = added)) ∧
  (∀ p i, clear_clicked i = false →
     ∃ added, appended_in_run i added ∧
              conversation (run env p i) = conversation p ++ added) ∧
  (∀ p i, clear_clicked i = true → uploaded_file i = None →
     ∃ added, appended_by (submitted i) added ∧
              conversation (run env p i) = added) ∧
  (∀ p earlier later,
     Forall (λ i, clear_clicked i = false) later →
     conversation (runs env p earlier)
       `prefix_of` conversation (runs env p (earlier ++ later))).
Proof.
  split; [done|]. split; [apply run_appends_or_resets|].
  split; [|split; [apply run_click_resets|]].
  - intros p i Hno.
    destruct (run_appends_or_resets env p i) as (added & Hadd & [[_ H]|[Hc _]]).
    + by exists added.
    + congruence.
  - intros p earlier later Hno. unfold runs at 2. rewrite foldl_app.
    by apply runs_extend.
Qed.

Lemma conversation_is_append_only_witness :
  conversation (runs (stub_env id) p_empty [submission (Py.lit "a")])
    `prefix_of`
  conversation (runs (stub_env id) p_empty
                  ([submission (Py.lit "a")] ++ [submission (Py.lit "b")])) ∧
  conversation
    (run (stub_env id)
       (mkProcess (Some [mkTurn (Py.lit "user") (Py.lit "old")]) [] ∅ O)
       clear_click) = [].
Proof.
  destruct (conversation_is_append_only (stub_env id))
    as (_ & _ & _ & Hreset & Hprefix).
  split.
  - apply (Hprefix p_empty [submission (Py.lit "a")] [submission (Py.lit "b")]).
    repeat constructor.
  - destruct (Hreset
                (mkProcess (Some [mkTurn (Py.lit "user") (Py.lit "old")]) [] ∅ O)
                clear_click) as (added & Hadded & ->);
      [reflexivity | reflexivity | exact Hadded].
Defined.

(** ** Further properties of the script *)

(** *** The display pass *)

(** The display pass draws, for every turn of the conversation and in
    conversation order, a bubble tagged with the turn's role and then the
    turn's content; it ends normally and changes nothing else. *)
Theorem display_messages_draws_every_turn (ms : list ChatTurn) (w : World) :
  display_messages ms w =
    (mkWorld (messages w) (trace w ++ bubbles ms) (files w) (drawn w), inr tt).
Proof.
  revert w. induction ms as [|m ms IH]; intros w.
  - destruct w. cbn. by rewrite app_nil_r.
  - cbn [display_messages]. run_steps. rewrite IH. cbn.
    by rewrite <- !app_assoc.
Qed.

(** *** The stream, frame by frame *)

Lemma placeholder_writes_app es1 es2 :
  placeholder_writes (es1 ++ es2) =
    placeholder_writes es1 ++ placeholder_writes es2.
Proof. apply omap_app. Qed.

Lemma sleeps_app es1 es2 : sleeps (es1 ++ es2) = sleeps es1 ++ sleeps es2.
Proof. apply omap_app. Qed.

Lemma errors_app es1 es2 : errors (es1 ++ es2) = errors es1 ++ errors es2.
Proof. apply omap_app. Qed.

Lemma gateway_calls_app es1 es2 :
  gateway_calls (es1 ++ es2) = gateway_calls es1 ++ gateway_calls es2.
Proof. apply omap_app. Qed.

Section StreamMore.

Context (env : Env).

(** However the loop ends, the frames it has written are the first frames
    of the response, and it has slept once after each of them. *)
Lemma stream_frames_so_far chunks : ∀ acc w,
  ∃ new,
    trace (stream env chunks acc w).1 = trace w ++ new ∧
    placeholder_writes new `prefix_of` frames acc chunks ∧
    sleeps new = replicate (length (placeholder_writes new)) 20 ∧
    match (stream env chunks acc w).2 with
    | inl _ => True
    | inr _ => placeholder_writes new = frames acc chunks
    end.
Proof.
  induction chunks as [|c cs IH]; intros acc w; cbn [stream frames].
  - exists []. cbn. by rewrite app_nil_r.
  - rewrite bind_unfold.
    destruct (markdown_raises env (trace w) ((acc ++ c) ++ cursor))
      as [e|] eqn:Hmd.
    + rewrite (placeholder_markdown_raises _ _ _ _ Hmd). cbn.
      exists []. rewrite app_nil_r. repeat split; try done.
      apply prefix_nil.
    + rewrite (placeholder_markdown_ok _ _ _ Hmd), bind_unfold.
      cbn [sleep_0_02 emit trace messages files drawn].
      set (w1 := mkWorld _ _ _ _).
      destruct (IH (acc ++ c) w1) as (new & Ht & Hpre & Hsl & Hres).
      exists ([PlaceholderMarkdown ((acc ++ c) ++ cursor); Sleep 20] ++ new).
      split.
      { rewrite Ht. unfold w1. cbn [trace]. by rewrite <- !app_assoc. }
      rewrite placeholder_writes_app, sleeps_app.
      change (placeholder_writes
                [PlaceholderMarkdown ((acc ++ c) ++ cursor); Sleep 20])
        with [(acc ++ c) ++ cursor].
      change (sleeps [PlaceholderMarkdown ((acc ++ c) ++ cursor); Sleep 20])
        with [20].
      rewrite Hsl, <- (app_assoc acc c cursor). cbn [app length replicate].
      split; [by apply prefix_cons|]. split; [done|].
      destruct (stream env cs (acc ++ c) w1).2; [done|]. by rewrite Hres.
Qed.

(** The loop does not read the file system and passes it on as it is. *)
Lemma stream_set_files fs chunks : ∀ acc w,
  stream env chunks acc (set_files fs w) =
    (set_files fs (stream env chunks acc w).1, (stream env chunks acc w).2).
Proof.
  induction chunks as [|c cs IH]; intros acc w; cbn [stream].
  - done.
  - rewrite !bind_unfold. unfold placeholder_markdown.
    cbn [set_files trace].
    destruct (markdown_raises env (trace w) ((acc ++ c) ++ cursor)); [done|].
    cbn [emit]. rewrite !bind_unfold. cbn [sleep_0_02 emit].
    cbn [messages trace files drawn].
    exact (IH (acc ++ c)
             (mkWorld (messages w)
                ((trace w ++ [PlaceholderMarkdown ((acc ++ c) ++ cursor)])
                   ++ [Sleep 20]) (files w) (drawn w))).
Qed.

End StreamMore.

Section HandlerMore.

Context (env : Env).

Lemma try_body_set_files fs prompt w :
  try_body env prompt (set_files fs w) =
    (set_files fs (try_body env prompt w).1, (try_body env prompt w).2).
Proof.
  unfold try_body. rewrite !bind_unfold. cbn [emit]. rewrite !bind_unfold.
  unfold invoke. cbn [set_files messages trace files drawn].
  destruct (llm_invoke env (trace w ++ [Spinner (Py.lit "Thinking...")])
              load_llm prompt) as [e|response]; [done|].
  rewrite !bind_unfold.
  pose proof (stream_set_files env fs (Py.iter response) []
                (mkWorld (messages w)
                   ((trace w ++ [Spinner (Py.lit "Thinking...")])
                      ++ [Invoke load_llm prompt]) (files w) (drawn w)))
    as Hs.
  unfold set_files at 1 in Hs. cbn [messages trace drawn] in Hs.
  rewrite Hs. clear Hs.
  destruct (stream env (Py.iter response) [] _) as [w2 [e|full]];
    cbn [fst snd]; [done|].
  rewrite !bind_unfold. unfold placeholder_markdown. cbn [set_files trace].
  destruct (markdown_raises env (trace w2) full); done.
Qed.

Lemma on_prompt_set_files fs prompt w :
  on_prompt env prompt (set_files fs w) =
    (set_files fs (on_prompt env prompt w).1, (on_prompt env prompt w).2).
Proof.
  rewrite !on_prompt_unfold. unfold try_except.
  change (at_try prompt (set_files fs w))
    with (set_files fs (at_try prompt w)).
  rewrite try_body_set_files.
  destruct (try_body env prompt (at_try prompt w)) as [w1 [e|[]]];
    cbn [fst snd]; [|done].
  by destruct (is_Exception e).
Qed.

(** The frames of one submission, whatever goes wrong after the gateway
    has answered. *)
Lemma try_body_frames prompt response w :
  llm_invoke env (trace w ++ [Spinner (Py.lit "Thinking...")]) load_llm prompt
    = inr response →
  ∃ new,
    trace (try_body env prompt w).1 = trace w ++ new ∧
    errors new = [] ∧
    placeholder_writes new
      `prefix_of` prefixes_with_cursor response ++ [response] ∧
    sleeps new =
      replicate (length (placeholder_writes new) `min` length response) 20.
Proof.
  intros Hgw. unfold try_body. rewrite bind_unfold. cbn [emit].
  rewrite bind_unfold. unfold invoke. cbn [messages trace files drawn].
  rewrite Hgw, bind_unfold.
  set (w1 := mkWorld (messages w) _ (files w) (drawn w)).
  destruct (stream_frames_so_far env (Py.iter response) [] w1)
    as (new & Ht & Hpre & Hsl & Hres).
  destruct (stream_spec env (Py.iter response) [] w1)
    as (new' & (_ & Ht' & _) & _ & Herr & Hfull).
  assert (new' = new) as -> by (rewrite Ht in Ht'; by apply app_inv_head in Ht').
  rewrite frames_prefixes in *.
  assert (length (placeholder_writes new) ≤ length response)%nat as Hlen.
  { apply prefix_length in Hpre.
    by rewrite prefixes_with_cursor_length in Hpre. }
  set (pre := [Spinner (Py.lit "Thinking..."); Invoke load_llm prompt]).
  assert (∀ rest, trace w1 ++ rest = trace w ++ pre ++ rest) as Hw1.
  { intros rest. unfold w1, pre. cbn [trace]. by rewrite <- !app_assoc. }
  destruct (stream env (Py.iter response) [] w1) as [w2 [e|full]];
    cbn [fst snd] in *.
  - exists (pre ++ new). rewrite Ht, Hw1.
    rewrite placeholder_writes_app, sleeps_app, errors_app, Herr, Hsl.
    change (placeholder_writes pre) with (@nil (list N)).
    change (sleeps pre) with (@nil N). change (errors pre) with (@nil (list N)).
    cbn [app]. split; [done|]. split; [done|].
    split; [by apply prefix_app_r|]. f_equal. lia.
  - destruct Hfull as [Hfull _].
    rewrite app_nil_l, Py_iter_concat in Hfull. subst full.
    rewrite bind_unfold.
    destruct (markdown_raises env (trace w2) response) as [e|] eqn:Hmd.
    + rewrite (placeholder_markdown_raises _ _ _ _ Hmd). cbn [fst snd].
      exists (pre ++ new). rewrite Ht, Hw1.
      rewrite placeholder_writes_app, sleeps_app, errors_app, Herr, Hsl, Hres.
      change (placeholder_writes pre) with (@nil (list N)).
      change (sleeps pre) with (@nil N).
      change (errors pre) with (@nil (list N)).
      cbn [app]. rewrite prefixes_with_cursor_length.
      split; [done|]. split; [done|].
      split; [by apply prefix_app_r|]. f_equal. lia.
    + rewrite (placeholder_markdown_ok _ _ _ Hmd). cbn [append fst snd trace].
      exists (pre ++ new ++ [PlaceholderMarkdown response]).
      rewrite Ht, <- app_assoc, Hw1.
      rewrite !placeholder_writes_app, !sleeps_app, !errors_app, Herr, Hsl,
        Hres.
      change (placeholder_writes pre) with (@nil (list N)).
      change (sleeps pre) with (@nil N).
      change (errors pre) with (@nil (list N)).
      change (placeholder_writes [PlaceholderMarkdown response])
        with [response].
      change (sleeps [PlaceholderMarkdown response]) with (@nil N).
      change (errors [PlaceholderMarkdown response]) with (@nil (list N)).
      cbn [app]. rewrite app_nil_r, length_app, prefixes_with_cursor_length.
      split; [done|]. split; [done|]. split; [done|].
      f_equal. cbn [length]. lia.
Qed.

End HandlerMore.

(** A frame is shown only after the frames before it: whatever happens once
    the gateway has answered [response], the writes to the placeholder are
    the first writes of the full sequence (the prefixes with the cursor,
    then the response), each cursor frame is followed by one sleep of 20 ms,
    and at most one error annotation is shown. *)
Theorem shown_frames_are_first_frames (env : Env) (prompt response : list N) (w : World) :
  llm_invoke env (trace (at_try prompt w) ++ [Spinner (Py.lit "Thinking...")])
    load_llm prompt = inr response →
  ∃ new,
    trace (on_prompt env prompt w).1 = trace w ++ new ∧
    placeholder_writes new
      `prefix_of` prefixes_with_cursor response ++ [response] ∧
    sleeps new =
      replicate (length (placeholder_writes new) `min` length response) 20 ∧
    (length (errors new) ≤ 1)%nat.
Proof.
  intros Hgw. rewrite on_prompt_unfold. unfold try_except.
  destruct (try_body_frames env prompt response (at_try prompt w) Hgw)
    as (new & Ht & Herr & Hpre & Hsl).
  assert (∀ rest, trace (at_try prompt w) ++ rest
                  = trace w ++ opening prompt ++ rest) as Hopen.
  { intros rest. unfold at_try, opening. cbn [trace].
    by rewrite <- !app_assoc. }
  destruct (try_body env prompt (at_try prompt w)) as [w1 [e|[]]];
    cbn [fst snd] in *.
  - destruct (is_Exception e); cbn [fst snd].
    + exists (opening prompt ++ new
                ++ [Error (Py.lit "An error occurred: " ++ exn_str e)]).
      cbn [except_clause emit fst trace].
      rewrite Ht, <- app_assoc, Hopen.
      rewrite !placeholder_writes_app, !sleeps_app, !errors_app, Herr.
      change (placeholder_writes (opening prompt)) with (@nil (list N)).
      change (sleeps (opening prompt)) with (@nil N).
      change (errors (opening prompt)) with (@nil (list N)).
      change (placeholder_writes
                [Error (Py.lit "An error occurred: " ++ exn_str e)])
        with (@nil (list N)).
      change (sleeps [Error (Py.lit "An error occurred: " ++ exn_str e)])
        with (@nil N).
      cbn [app]. rewrite !app_nil_r. done.
    + exists (opening prompt ++ new). rewrite Ht, Hopen.
      rewrite !placeholder_writes_app, !sleeps_app, !errors_app, Herr.
      change (placeholder_writes (opening prompt)) with (@nil (list N)).
      change (sleeps (opening prompt)) with (@nil N).
      change (errors (opening prompt)) with (@nil (list N)).
      cbn [app length]. repeat split; try done. lia.
  - exists (opening prompt ++ new). rewrite Ht, Hopen.
    rewrite !placeholder_writes_app, !sleeps_app, !errors_app, Herr.
    change (placeholder_writes (opening prompt)) with (@nil (list N)).
    change (sleeps (opening prompt)) with (@nil N).
    change (errors (opening prompt)) with (@nil (list N)).
    cbn [app length]. repeat split; try done. lia.
Qed.

Lemma shown_frames_are_first_frames_witness :
  ∃ new,
    trace (on_prompt (stub_env (λ _, Py.lit "hi")) (Py.lit "hello") w_empty).1
      = new ∧
    placeholder_writes new
      `prefix_of` [Py.lit "h" ++ cursor; Py.lit "hi" ++ cursor; Py.lit "hi"] ∧
    sleeps new = replicate (length (placeholder_writes new) `min` 2) 20.
Proof.
  destruct (shown_frames_are_first_frames (stub_env (λ _, Py.lit "hi"))
              (Py.lit "hello") (Py.lit "hi") w_empty)
    as (new & Ht & Hpre & Hsl & _); [reflexivity|].
  exists new. split; [exact Ht|]. split; [exact Hpre | exact Hsl].
Defined.

(** Prompt handling neither reads nor writes the file system: run over any
    other file system it does the same and hands that file system back, so
    nothing of an upload can reach the conversation or the gateway. *)
Theorem handler_ignores_the_files (env : Env) (submitted : option (list N)) (fs : gmap (list N) (list byte)) (w : World) :
  chat_input_handler env submitted (set_files fs w) =
    (set_files fs (chat_input_handler env submitted w).1,
     (chat_input_handler env submitted w).2) ∧
  files (chat_input_handler env submitted w).1 = files w.
Proof.
  assert (∀ fs',
            chat_input_handler env submitted (set_files fs' w) =
              (set_files fs' (chat_input_handler env submitted w).1,
               (chat_input_handler env submitted w).2)) as Hframe.
  { intros fs'. destruct submitted as [[|c prompt]|]; [done| |done].
    rewrite !handler_on_prompt by done.
    apply (on_prompt_set_files env fs' (c :: prompt)
             (emit (ChatInput (Py.lit "What would you like to discuss?")) w).1). }
  split; [apply Hframe|].
  pose proof (Hframe (files w)) as H.
  replace (set_files (files w) w) with w in H by (by destruct w).
  apply (f_equal (λ x, files x.1)) in H. cbn [fst set_files files] in H.
  done.
Qed.

(** *** The upload helper, when things go wrong or repeat *)

Section UploadMore.

Context (env : Env).

(** When every candidate is taken, [mkstemp_inner] has drawn all its names,
    has made no file, and raises. *)
Lemma mkstemp_inner_exhausted dir pre suf tries : ∀ w,
  (∀ k, (k < tries)%nat →
        files w !! candidate env dir pre suf (drawn w) k ≠ None) →
  mkstemp_inner env tries dir pre suf w =
    (mkWorld (messages w) (trace w) (files w) (drawn w + tries),
     inl no_usable_name).
Proof.
  induction tries as [|tries IH]; intros w Htaken.
  - destruct w. cbn. by rewrite Nat.add_0_r.
  - rewrite mkstemp_inner_step.
    destruct (files w !! candidate env dir pre suf (drawn w) 0) eqn:Hfile.
    + rewrite IH.
      * cbn [messages trace files drawn]. by rewrite Nat.add_succ_r.
      * intros k Hk. cbn [files drawn].
        specialize (Htaken (S k) ltac:(lia)).
        unfold candidate in *. by rewrite Nat.add_succ_r in Htaken.
    + by destruct (Htaken O ltac:(lia)).
Qed.

Lemma process_file_exhausted_aux up w :
  candidates_taken env (path_suffix (name up)) w →
  process_file env (Some up) w =
    (mkWorld (messages w) (trace w) (files w) (drawn w + TMP_MAX env),
     inl no_usable_name).
Proof.
  intros Htaken. unfold process_file, with_file, NamedTemporaryFile.
  rewrite !bind_unfold. by rewrite mkstemp_inner_exhausted.
Qed.

End UploadMore.

(** When all the paths [tempfile] would try are taken, [process_file] does
    not return: the [FileExistsError] of [tempfile] leaves it, no file has
    been made or changed, and [TMP_MAX] names have been used up. *)
Theorem process_file_gives_up (env : Env) (up : UploadedFile) (w : World) :
  candidates_taken env (path_suffix (name up)) w →
  (process_file env (Some up) w).2 =
    inl no_usable_name ∧
  files (process_file env (Some up) w).1 = files w ∧
  drawn (process_file env (Some up) w).1 = (drawn w + TMP_MAX env)%nat.
Proof. intros Htaken. by rewrite process_file_exhausted_aux. Qed.

Lemma process_file_gives_up_witness :
  (process_file two_names_env (Some (mkUpload (Py.lit "a.txt") [x63])) w_taken).2
  = inl no_usable_name.
Proof.
  apply (process_file_gives_up two_names_env (mkUpload (Py.lit "a.txt") [x63])
           w_taken).
  intros k Hk. destruct k as [|[|k]].
  - vm_compute. discriminate.
  - vm_compute. discriminate.
  - vm_compute in Hk. lia.
Defined.

(** [process_file] never touches a file that was already there: whatever
    it is given and however it ends, every path that held a file before
    holds the same bytes after. *)
Theorem process_file_keeps_existing_files (env : Env) (uploaded : option UploadedFile) (w : World) (path : list N) (old : list byte) :
  files w !! path = Some old →
  files (process_file env uploaded w).1 !! path = Some old.
Proof.
  intros Hold. destruct uploaded as [up|]; [|done].
  pose proof (process_file_some env up w) as (_ & _ & Hres).
  destruct (process_file env (Some up) w).2 as [e|[new|]].
  - by rewrite Hres.
  - destruct Hres as (k & _ & _ & Hfree & ->).
    rewrite lookup_insert_ne; [done|]. intros ->. congruence.
  - done.
Qed.

Lemma process_file_keeps_existing_files_witness :
  files (process_file (stub_env id) (Some (mkUpload (Py.lit "a.txt") [x63]))
           w_taken).1 !! Py.lit "/tmp/tmpk3x9_a00.txt" = Some [x61].
Proof.
  apply (process_file_keeps_existing_files (stub_env id)
           (Some (mkUpload (Py.lit "a.txt") [x63])) w_taken).
  vm_compute. reflexivity.
Defined.

(** Each call makes a file of its own: when two uploads are processed one
    after the other, the second path differs from the first, and after the
    second call both files are there, each with its upload's bytes.  (The
    script calls [process_file] in every run while a file is attached, and
    nothing ever removes these files.) *)
Theorem process_file_twice_makes_two_files (env : Env) (up1 up2 : UploadedFile) (w : World) (path1 path2 : list N) :
  (process_file env (Some up1) w).2 = inr (Some path1) →
  (process_file env (Some up2) (process_file env (Some up1) w).1).2
    = inr (Some path2) →
  path1 ≠ path2 ∧
  files (process_file env (Some up2) (process_file env (Some up1) w).1).1
    !! path1 = Some (getvalue up1) ∧
  files (process_file env (Some up2) (process_file env (Some up1) w).1).1
    !! path2 = Some (getvalue up2).
Proof.
  intros H1 H2.
  pose proof (process_file_some env up1 w) as (_ & _ & Hres1).
  rewrite H1 in Hres1. destruct Hres1 as (k1 & _ & _ & _ & Hfiles1).
  pose proof (process_file_some env up2 (process_file env (Some up1) w).1)
    as (_ & _ & Hres2).
  rewrite H2 in Hres2. destruct Hres2 as (k2 & _ & _ & Hfree2 & Hfiles2).
  rewrite Hfiles1 in Hfree2.
  assert (path1 ≠ path2) as Hne.
  { intros ->. by rewrite lookup_insert_eq in Hfree2. }
  split; [done|]. rewrite Hfiles2, Hfiles1. split.
  - by rewrite lookup_insert_ne, lookup_insert_eq.
  - by rewrite lookup_insert_eq.
Qed.

Lemma process_file_twice_makes_two_files_witness :
  Py.lit "/tmp/tmpk3x9_a00.txt" ≠ Py.lit "/tmp/tmpk3x9_a01.txt" ∧
  files (process_file (stub_env id) (Some (mkUpload (Py.lit "a.txt") [x63]))
           (process_file (stub_env id) (Some (mkUpload (Py.lit "a.txt") [x63]))
              w_empty).1).1
    !! Py.lit "/tmp/tmpk3x9_a00.txt" = Some [x63].
Proof.
  destruct (process_file_twice_makes_two_files (stub_env id)
              (mkUpload (Py.lit "a.txt") [x63]) (mkUpload (Py.lit "a.txt") [x63])
              w_empty (Py.lit "/tmp/tmpk3x9_a00.txt")
              (Py.lit "/tmp/tmpk3x9_a01.txt"))
    as (Hne & H1 & _); [vm_compute; reflexivity | vm_compute; reflexivity |].
  split; [exact Hne | exact H1].
Defined.

(** *** Whole runs *)

(** As [run_steps], and read the fields of the worlds built on the way. *)
Ltac run_all :=
  repeat (rewrite bind_unfold;
          cbn [emit append reset_messages messages trace files drawn]).

Section RunsMore.

Context (env : Env).

Lemma display_messages_eq ms : ∀ w,
  display_messages ms w =
    (mkWorld (messages w) (trace w ++ bubbles ms) (files w) (drawn w), inr tt).
Proof.
  induction ms as [|m ms IH]; intros w.
  - destruct w. cbn. by rewrite app_nil_r.
  - cbn [display_messages]. run_steps. rewrite IH. cbn.
    by rewrite <- !app_assoc.
Qed.

(** The script, cut at the places where it can stop. *)
Lemma script_unfold i w :
  script env i w =
    match sidebar env i (at_sidebar w) with
    | (w1, inl e) => (w1, inl e)
    | (w1, inr _) =>
        match chat_input_handler env (submitted i)
                (mkWorld (messages w1) (trace w1 ++ bubbles (messages w1))
                   (files w1) (drawn w1)) with
        | (w3, inl e) => (w3, inl e)
        | (w3, inr _) => emit StyleSheet w3
        end
    end.
Proof.
  unfold script. run_all. fold (at_sidebar w).
  destruct (sidebar env i (at_sidebar w)) as [w1 [e|[]]]; [done|].
  rewrite !bind_unfold. cbn [fst snd]. rewrite display_messages_eq.
  rewrite !bind_unfold.
  by destruct (chat_input_handler env (submitted i) _) as [w3 [e|[]]].
Qed.

Lemma gateway_calls_bubbles ms : gateway_calls (bubbles ms) = [].
Proof. induction ms as [|m ms IH]; [done|]. exact IH. Qed.

(** The sidebar calls no gateway. *)
Lemma calls_no_gateway_bind {A B} (m : M A) (k : A → M B) :
  calls_no_gateway m → (∀ a, calls_no_gateway (k a)) →
  calls_no_gateway (m ≫= k).
Proof.
  intros Hm Hk w. rewrite bind_unfold.
  destruct (Hm w) as (n1 & Ht1 & Hc1).
  destruct (m w) as [w1 [e|a]]; cbn [fst] in *.
  - by exists n1.
  - destruct (Hk a w1) as (n2 & Ht2 & Hc2).
    exists (n1 ++ n2). rewrite Ht2, Ht1, app_assoc.
    by rewrite gateway_calls_app, Hc1, Hc2.
Qed.

Lemma calls_no_gateway_emit e :
  gateway_calls [e] = [] → calls_no_gateway (emit e).
Proof. intros He w. by exists [e]. Qed.

Lemma calls_no_gateway_ret {A} (a : A) : calls_no_gateway (mret a).
Proof. intros w. exists []. by rewrite app_nil_r. Qed.

Lemma calls_no_gateway_reset : calls_no_gateway reset_messages.
Proof. intros w. exists []. cbn. by rewrite app_nil_r. Qed.

Lemma calls_no_gateway_process_file uploaded :
  calls_no_gateway (process_file env uploaded).
Proof.
  intros w. exists []. rewrite app_nil_r.
  destruct uploaded as [up|]; [|done].
  by pose proof (process_file_some env up w) as (_ & Ht & _).
Qed.

(** The sidebar calls no gateway. *)
Lemma sidebar_trace i : calls_no_gateway (sidebar env i).
Proof.
  unfold sidebar, clear_conversation.
  repeat first
    [ apply calls_no_gateway_process_file
    | apply calls_no_gateway_emit; reflexivity
    | apply calls_no_gateway_ret
    | apply calls_no_gateway_reset
    | apply calls_no_gateway_bind; [|intros ?]
    | match goal with
      | |- calls_no_gateway (match ?x with _ => _ end) => destruct x
      end ].
Qed.

(** The handler calls the gateway with a truthy submission, and with
    nothing else. *)
Lemma handler_trace submitted w :
  ∃ new,
    trace (chat_input_handler env submitted w).1 = trace w ++ new ∧
    gateway_calls new =
      match submitted with
      | Some prompt => if Py.truthy prompt then [prompt] else []
      | None => []
      end.
Proof.
  destruct submitted as [[|c prompt]|].
  - by exists [ChatInput (Py.lit "What would you like to discuss?")].
  - rewrite handler_on_prompt by done.
    destruct (on_prompt_spec env (c :: prompt)
                (emit (ChatInput (Py.lit "What would you like to discuss?")) w).1)
      as (new & Ht & Hcalls & _).
    exists ([ChatInput (Py.lit "What would you like to discuss?")]
              ++ opening (c :: prompt) ++ new).
    rewrite Ht. cbn [emit fst trace]. rewrite <- app_assoc.
    split; [done|]. by rewrite !gateway_calls_app, Hcalls.
  - by exists [ChatInput (Py.lit "What would you like to discuss?")].
Qed.

Lemma script_gateway_calls i w :
  ∃ new,
    trace (script env i w).1 = trace w ++ new ∧
    gateway_calls new =
      match (sidebar env i (at_sidebar w)).2, submitted i with
      | inr _, Some prompt => if Py.truthy prompt then [prompt] else []
      | _, _ => []
      end ∧
    ((script env i w).2 = inr tt →
     (sidebar env i (at_sidebar w)).2 = inr tt).
Proof.
  rewrite script_unfold.
  destruct (sidebar_trace i (at_sidebar w)) as (n1 & Ht1 & Hc1).
  destruct (sidebar env i (at_sidebar w)) as [w1 [e|[]]]; cbn [fst snd] in *.
  - eexists. rewrite Ht1. unfold at_sidebar. cbn [trace].
    rewrite <- !app_assoc. split; [reflexivity|].
    by rewrite !gateway_calls_app, Hc1.
  - set (w2 := mkWorld _ _ _ _).
    destruct (handler_trace (submitted i) w2) as (n2 & Ht2 & Hc2).
    destruct (chat_input_handler env (submitted i) w2) as [w3 [e|[]]];
      cbn [emit fst snd trace] in *.
    + eexists. rewrite Ht2. unfold w2. cbn [trace].
      rewrite Ht1. unfold at_sidebar. cbn [trace]. rewrite <- !app_assoc.
      split; [reflexivity|].
      rewrite !gateway_calls_app, Hc1, Hc2, gateway_calls_bubbles.
      cbn. split; [|done]. by destruct (submitted i).
    + eexists. rewrite Ht2. unfold w2. cbn [trace].
      rewrite Ht1. unfold at_sidebar. cbn [trace]. rewrite <- !app_assoc.
      split; [reflexivity|].
      rewrite !gateway_calls_app, Hc1, Hc2, gateway_calls_bubbles.
      cbn. rewrite app_nil_r. split; [|done]. by destruct (submitted i).
Qed.

Lemma script_failed_upload i up w :
  uploaded_file i = Some up →
  candidates_taken env (path_suffix (name up)) w →
  script env i w =
    (mkWorld (messages w) (trace w ++ drawn_before_upload) (files w)
       (drawn w + TMP_MAX env),
     inl no_usable_name).
Proof.
  intros Hup Htaken. rewrite script_unfold. unfold sidebar. rewrite Hup.
  run_steps. rewrite process_file_exhausted_aux by exact Htaken.
  cbn [messages trace files drawn at_sidebar]. unfold drawn_before_upload.
  by rewrite <- !app_assoc.
Qed.

Lemma script_clear_click i ms1 ms2 tr fs n :
  clear_clicked i = true → uploaded_file i = None →
  script env i (mkWorld ms1 tr fs n) = script env i (mkWorld ms2 tr fs n).
Proof.
  intros Hclear Hup. rewrite !script_unfold.
  assert (sidebar env i (at_sidebar (mkWorld ms1 tr fs n))
          = sidebar env i (at_sidebar (mkWorld ms2 tr fs n))) as ->; [|done].
  unfold sidebar. rewrite Hup, Hclear. reflexivity.
Qed.

(** A run in which the button is not clicked and nothing truthy is
    submitted leaves the conversation as it was. *)
Lemma run_quiet p i :
  clear_clicked i = false → submitted i = None ∨ submitted i = Some [] →
  conversation (run env p i) = conversation p.
Proof.
  intros Hclear Hsub. rewrite run_conversation.
  destruct (script_spec env i (mkWorld (conversation p) (log p) (disk p)
                                 (names_drawn p))) as (w0 & Hw0 & Hscript).
  pose proof (sidebar_spec env i w0) as Hside. cbn [messages] in Hw0.
  rewrite Hclear in Hside.
  destruct (sidebar env i w0).2 as [e|[]].
  - destruct Hside as [Hm _]. by rewrite Hscript, Hm.
  - destruct Hscript as (w2 & Hw2 & ->).
    destruct (empty_submission_is_noop_aux env (submitted i) w2 Hsub)
      as [-> _].
    by rewrite Hw2, Hside.
Qed.

(** A run in which a non-empty prompt meets a gateway that raises appends
    the user turn only. *)
Lemma run_submission_down p prompt :
  gateway_down env → prompt ≠ [] →
  conversation (run env p (submission prompt)) =
    conversation p ++ [mkTurn (Py.lit "user") prompt].
Proof.
  intros Hdown Hne. rewrite run_conversation.
  destruct (script_spec env (submission prompt)
              (mkWorld (conversation p) (log p) (disk p) (names_drawn p)))
    as (w0 & Hw0 & Hscript).
  pose proof (sidebar_spec env (submission prompt) w0) as Hside.
  cbn [messages] in Hw0.
  destruct (sidebar env (submission prompt) w0).2 as [e|[]].
  - by destruct Hside as [_ Hup].
  - destruct Hscript as (w2 & Hw2 & ->). cbn [submission submitted].
    rewrite handler_on_prompt by done.
    set (w3 := (emit (ChatInput (Py.lit "What would you like to discuss?"))
                  w2).1).
    destruct (on_prompt_spec env prompt w3) as (new & _ & _ & Hres).
    destruct (Hdown (trace (at_try prompt w3)
                       ++ [Spinner (Py.lit "Thinking...")]) load_llm prompt)
      as [e Hgw].
    rewrite (try_body_gateway_raises env prompt _ e Hgw) in Hres.
    destruct Hres as [-> _]. unfold w3. cbn [emit fst messages].
    by rewrite Hw2, Hside, Hw0.
Qed.

Lemma runs_submissions_down prompts : ∀ p,
  gateway_down env → Forall (λ s, s ≠ []) prompts →
  conversation (runs env p (map submission prompts)) =
    conversation p ++ map (mkTurn (Py.lit "user")) prompts.
Proof.
  induction prompts as [|prompt prompts IH]; intros p Hdown Hne.
  - by rewrite app_nil_r.
  - apply Forall_cons in Hne as [Hne1 Hne]. cbn [map runs foldl].
    fold (runs env (run env p (submission prompt)) (map submission prompts)).
    rewrite IH by done. rewrite run_submission_down by done.
    by rewrite <- app_assoc.
Qed.

End RunsMore.

(** In one run of the script the gateway is called at most once: with the
    submitted string when the run gets past the sidebar and the string is
    not empty, and not at all otherwise (nothing submitted, the empty
    string, or a run ended in the sidebar by the upload helper).  A run that
    ends normally has got past the sidebar. *)
Theorem run_calls_the_gateway_at_most_once (env : Env) (i : Inputs) (w : World) :
  ∃ new,
    trace (script env i w).1 = trace w ++ new ∧
    gateway_calls new =
      match (sidebar env i (at_sidebar w)).2, submitted i with
      | inr _, Some prompt => if Py.truthy prompt then [prompt] else []
      | _, _ => []
      end ∧
    ((script env i w).2 = inr tt →
     (sidebar env i (at_sidebar w)).2 = inr tt).
Proof. apply script_gateway_calls. Qed.

(** An upload for which [tempfile] finds no free name ends the run at
    [process_file]: the exception leaves the script, the conversation is as
    it was, and nothing after the upload spinner happens: no clear, no chat
    history, no input box, no gateway call, even when the button was
    clicked or a prompt was submitted in that run. *)
Theorem failed_upload_ends_the_run (env : Env) (i : Inputs) (up : UploadedFile) (w : World) :
  uploaded_file i = Some up →
  candidates_taken env (path_suffix (name up)) w →
  script env i w =
    (mkWorld (messages w) (trace w ++ drawn_before_upload) (files w)
       (drawn w + TMP_MAX env),
     inl no_usable_name).
Proof. apply script_failed_upload. Qed.

Lemma failed_upload_ends_the_run_witness :
  messages (script two_names_env
              (mkInputs (Some (mkUpload (Py.lit "a.txt") [x63])) true
                 (Some (Py.lit "hello")))
              w_taken).1
  = [mkTurn (Py.lit "user") (Py.lit "hello")].
Proof.
  rewrite (failed_upload_ends_the_run two_names_env
             (mkInputs (Some (mkUpload (Py.lit "a.txt") [x63])) true
                (Some (Py.lit "hello")))
             (mkUpload (Py.lit "a.txt") [x63]) w_taken).
  - reflexivity.
  - reflexivity.
  - intros k Hk. destruct k as [|[|k]].
    + vm_compute. discriminate.
    + vm_compute. discriminate.
    + vm_compute in Hk. lia.
Defined.

(** A click on the clear button takes effect before anything of the
    conversation is used: a run with the click and without an upload ends in
    the same state, with the same things drawn and the same gateway call,
    whatever the conversation held before. *)
Theorem clear_click_forgets_the_conversation (env : Env) (i : Inputs) (before1 before2 : option (list ChatTurn)) (l : list Effect) (d : gmap (list N) (list byte)) (n : nat) :
  clear_clicked i = true → uploaded_file i = None →
  run env (mkProcess before1 l d n) i = run env (mkProcess before2 l d n) i.
Proof.
  intros Hclear Hup. unfold run. cbn [session_messages log disk names_drawn].
  by rewrite (script_clear_click env i (ensure_messages before1)
                (ensure_messages before2) l d n Hclear Hup).
Qed.

Lemma clear_click_forgets_the_conversation_witness :
  run (stub_env id)
    (mkProcess (Some [mkTurn (Py.lit "user") (Py.lit "old")]) [] ∅ O)
    (mkInputs None true (Some (Py.lit "new")))
  = run (stub_env id) (mkProcess None [] ∅ O)
      (mkInputs None true (Some (Py.lit "new"))).
Proof.
  apply (clear_click_forgets_the_conversation (stub_env id)
           (mkInputs None true (Some (Py.lit "new")))); reflexivity.
Defined.

(** A run without a click on the button and without a non-empty submission
    leaves the conversation as it was, whether or not a file is attached
    and whether or not the upload helper raises; after the run the key
    [messages] is in the session state. *)
Theorem quiet_run_keeps_the_conversation (env : Env) (p : Process) (i : Inputs) :
  clear_clicked i = false → submitted i = None ∨ submitted i = Some [] →
  conversation (run env p i) = conversation p ∧
  session_messages (run env p i) = Some (conversation p).
Proof.
  intros Hclear Hsub.
  pose proof (run_quiet env p i Hclear Hsub) as Hq.
  split; [done|]. unfold conversation, run in *.
  cbn [session_messages ensure_messages] in *. by rewrite Hq.
Qed.

Lemma quiet_run_keeps_the_conversation_witness :
  session_messages
    (run (stub_env id) p_empty
       (mkInputs (Some (mkUpload (Py.lit "a.txt") [x63])) false None))
  = Some [].
Proof.
  destruct (quiet_run_keeps_the_conversation (stub_env id) p_empty
              (mkInputs (Some (mkUpload (Py.lit "a.txt") [x63])) false None))
    as [_ H]; [reflexivity | left; reflexivity |].
  exact H.
Defined.

(** Alternation of roles is not enforced: against a gateway that raises at
    every call, [N] non-empty submissions leave [N] user turns in a row, in
    submission order, and no assistant turn. *)
Theorem failing_gateway_leaves_user_turns_only (env : Env) (prompts : list (list N)) (p : Process) :
  gateway_down env → Forall (λ s, s ≠ []) prompts →
  conversation (runs env p (map submission prompts)) =
    conversation p ++ map (mkTurn (Py.lit "user")) prompts.
Proof. intros Hdown Hne. by apply runs_submissions_down. Qed.

Lemma failing_gateway_leaves_user_turns_only_witness :
  conversation (runs down_env p_empty
                  (map submission [Py.lit "hello"; Py.lit "anyone?"]))
  = [mkTurn (Py.lit "user") (Py.lit "hello");
     mkTurn (Py.lit "user") (Py.lit "anyone?")].
Proof.
  apply (failing_gateway_leaves_user_turns_only down_env
           [Py.lit "hello"; Py.lit "anyone?"] p_empty).
  - intros h llm prompt. exists (mkExn true (Py.lit "connection refused")).
    reflexivity.
  - repeat constructor; discriminate.
Defined.

(** *** What [except Exception] does not catch, and what [tempfile] does
    not catch *)

(** Something raised in the [try] block that is not an instance of
    [Exception] is not caught: it leaves the block under the [if], no error
    annotation is shown, and the conversation keeps the user turn that was
    appended before the [try]. *)
Theorem uncaught_raise_leaves_the_handler (env : Env) (prompt : list N) (w : World) (e : exn) :
  (try_body env prompt (at_try prompt w)).2 = inl e →
  is_Exception e = false →
  (on_prompt env prompt w).2 = inl e ∧
  messages (on_prompt env prompt w).1 =
    messages w ++ [mkTurn (Py.lit "user") prompt] ∧
  ∃ new, trace (on_prompt env prompt w).1 = trace w ++ new ∧ errors new = [].
Proof.
  intros Hraise Hkind.
  destruct (on_prompt_spec env prompt w) as (new & Ht & _ & Hres).
  rewrite Hraise, Hkind in Hres. destruct Hres as (Hm & Hret & Herr).
  split; [done|]. split; [done|].
  exists (opening prompt ++ new). split; [done|].
  by rewrite errors_app, Herr.
Qed.

Lemma uncaught_raise_leaves_the_handler_witness :
  (on_prompt stopping_env (Py.lit "hello") w_empty).2
    = inl (mkExn false (Py.lit "")) ∧
  messages (on_prompt stopping_env (Py.lit "hello") w_empty).1
    = [mkTurn (Py.lit "user") (Py.lit "hello")].
Proof.
  destruct (uncaught_raise_leaves_the_handler stopping_env (Py.lit "hello")
              w_empty (mkExn false (Py.lit "")))
    as (Hret & Hm & _); [reflexivity | reflexivity |].
  split; [exact Hret | exact Hm].
Defined.

Section OpenError.

Context (env : Env).

(** When [os.open] fails on the first free candidate, [mkstemp_inner]
    raises that error and has made no file. *)
Lemma mkstemp_inner_open_error dir pre suf e tries : ∀ w k,
  (k < tries)%nat →
  (∀ j, (j < k)%nat →
        files w !! candidate env dir pre suf (drawn w) j ≠ None) →
  files w !! candidate env dir pre suf (drawn w) k = None →
  os_open_error env (candidate env dir pre suf (drawn w) k) = Some e →
  (mkstemp_inner env tries dir pre suf w).2 = inl e ∧
  files (mkstemp_inner env tries dir pre suf w).1 = files w.
Proof.
  induction tries as [|tries IH]; intros w k Hk Htaken Hfree Hopen; [lia|].
  rewrite mkstemp_inner_step. destruct k as [|k].
  - by rewrite Hfree, Hopen.
  - destruct (files w !! candidate env dir pre suf (drawn w) 0) eqn:Hfile;
      [|by destruct (Htaken O ltac:(lia))].
    apply (IH (mkWorld (messages w) (trace w) (files w) (S (drawn w))) k);
      [lia| | |]; cbn [files drawn].
    + intros j Hj. specialize (Htaken (S j) ltac:(lia)).
      unfold candidate in *. by rewrite Nat.add_succ_r in Htaken.
    + unfold candidate in *. by rewrite Nat.add_succ_r in Hfree.
    + unfold candidate in *. by rewrite Nat.add_succ_r in Hopen.
Qed.

End OpenError.

(** An error of [os.open] other than "the name is taken" is not handled
    anywhere: when it occurs at the first free path [tempfile] tries for
    the upload, [process_file] raises it, and no file has been made or
    changed. *)
Theorem os_open_error_leaves_process_file (env : Env) (up : UploadedFile) (w : World) (e : exn) (k : nat) :
  (k < TMP_MAX env)%nat →
  (∀ j, (j < k)%nat →
        files w !! candidate env (tempdir env) (Py.lit "tmp")
                     (path_suffix (name up)) (drawn w) j ≠ None) →
  files w !! candidate env (tempdir env) (Py.lit "tmp")
               (path_suffix (name up)) (drawn w) k = None →
  os_open_error env (candidate env (tempdir env) (Py.lit "tmp")
                       (path_suffix (name up)) (drawn w) k) = Some e →
  (process_file env (Some up) w).2 = inl e ∧
  files (process_file env (Some up) w).1 = files w.
Proof.
  intros Hk Htaken Hfree Hopen.
  destruct (mkstemp_inner_open_error env (tempdir env) (Py.lit "tmp")
              (path_suffix (name up)) e (TMP_MAX env) w k Hk Htaken Hfree Hopen)
    as [Hret Hfiles].
  unfold process_file, with_file, NamedTemporaryFile. rewrite !bind_unfold.
  destruct (mkstemp_inner env (TMP_MAX env) _ _ _ w) as [w1 r].
  cbn [fst snd] in *. by subst r.
Qed.

Lemma os_open_error_leaves_process_file_witness :
  (process_file (stub_env id)
     (Some (mkUpload (Py.lit "a." ++ replicate 250 120) [x63])) w_empty).2
  = inl (mkExn true
           (Py.lit "[Errno 36] File name too long: '/tmp/tmpk3x9_a00."
              ++ replicate 250 120 ++ Py.lit "'")).
Proof.
  apply (os_open_error_leaves_process_file (stub_env id)
           (mkUpload (Py.lit "a." ++ replicate 250 120) [x63]) w_empty
           (mkExn true
              (Py.lit "[Errno 36] File name too long: '/tmp/tmpk3x9_a00."
                 ++ replicate 250 120 ++ Py.lit "'")) O).
  - vm_compute. lia.
  - intros j Hj. lia.
  - reflexivity.
  - vm_compute. reflexivity.
Defined.
